(** * Macintosh VIA pair (hw/misc/mac_via.c): RTC/PRAM serial engine,
    ADB status bit, power-off hook, register window and periodic alarms.

    The C code is embedded shallowly: the device structs become records,
    every C function becomes a Rocq function of the same name that takes the
    state and returns the new state, and the collaborators that live in other
    files (the generic 6522 engine, the ADB transport, the virtual clock) are
    section variables. *)

From Stdlib Require Import ZArith Bool Lia.
From stdpp Require Import base list.

Local Open Scope Z_scope.

(** ** C integer types *)

(** Conversion to [uint8_t] and [uint32_t]. *)
Definition u8 (x : Z) : Z := x mod 256.
Definition u32 (x : Z) : Z := x mod 4294967296.

(** C truth value of an integer expression. *)
Definition nz (x : Z) : bool := negb (x =? 0).

(** ** Constants of mac_via.c *)

Definition VIA_SIZE : Z := 0x2000.

Definition VIA1B_vADBS2 : Z := 0x20.
Definition VIA1B_vADBS1 : Z := 0x10.
Definition VIA1B_vADBInt : Z := 0x08.
Definition VIA1B_vRTCEnb : Z := 0x04.
Definition VIA1B_vRTCClk : Z := 0x02.
Definition VIA1B_vRTCData : Z := 0x01.

Definition VIA2B_vPower : Z := 0x04.

Definition VIA1ACR_vShiftOut : Z := 0x10.

Definition VIA1B_vADB_StateMask : Z := Z.lor VIA1B_vADBS1 VIA1B_vADBS2.
Definition VIA1B_vADB_StateShift : Z := 4.

Definition VIA_ADB_POLL_FREQ : Z := 50.
Definition VIA_TIMER_FREQ : Z := 783360.
Definition RTC_OFFSET : Z := 2082844800.
Definition NANOSECONDS_PER_SECOND : Z := 1000000000.

(** ** Device state *)

(** The fields of [MOS6522State] that mac_via.c reads or writes. All of them
    are [uint8_t] registers. *)
Record MOS6522State : Type := {
  b : Z;
  dirb : Z;
  sr : Z;
  acr : Z;
  ifr : Z
}.

Definition set_b (v : Z) (s : MOS6522State) : MOS6522State :=
  Build_MOS6522State v (dirb s) (sr s) (acr s) (ifr s).
Definition set_dirb (v : Z) (s : MOS6522State) : MOS6522State :=
  Build_MOS6522State (b s) v (sr s) (acr s) (ifr s).
Definition set_sr (v : Z) (s : MOS6522State) : MOS6522State :=
  Build_MOS6522State (b s) (dirb s) v (acr s) (ifr s).
Definition set_ifr (v : Z) (s : MOS6522State) : MOS6522State :=
  Build_MOS6522State (b s) (dirb s) (sr s) (acr s) v.

(** The argument of [qemu_system_shutdown_request]. *)
Inductive ShutdownCause : Type :=
  | SHUTDOWN_CAUSE_GUEST_SHUTDOWN.

(** ** VIA 2: the power-off hook *)

(** [mos6522_q800_via2_portB_write]: the list holds the shutdown requests the
    call issues, in order. *)
Definition mos6522_q800_via2_portB_write (s : MOS6522State) : list ShutdownCause :=
  if nz (Z.land (dirb s) VIA2B_vPower) && (Z.land (b s) VIA2B_vPower =? 0)
  then [SHUTDOWN_CAUSE_GUEST_SHUTDOWN]
  else [].

(** ** The periodic alarms: deadlines *)

(** The deadline [via1_VBL] and [mac_via_reset] hand to [timer_mod] for the
    video-blank alarm; [now] is [qemu_clock_get_ns(QEMU_CLOCK_VIRTUAL)], an
    [int64_t], and [/] of C truncates. *)
Definition vbl_deadline (now : Z) : Z :=
  Z.quot (now + 16630) 16630 * 16630.

(** The same for the one-second alarm, in milliseconds. *)
Definition one_second_deadline (now_ms : Z) : Z :=
  Z.quot (now_ms + 1000) 1000 * 1000.

(** The same for the ADB poll alarm. *)
Definition adb_poll_deadline (now : Z) : Z :=
  now + Z.quot NANOSECONDS_PER_SECOND VIA_ADB_POLL_FREQ.

(** ** Register window *)

Section RegisterWindow.

(** The generic chip engine (hw/misc/mos6522.c) is not part of this file:
    [mos6522_read] and [mos6522_write] are taken as they come, over
    whatever state the engine owns. *)
Context {Chip : Type}.
Variable mos6522_read : Chip -> Z -> Z -> Z * Chip.
Variable mos6522_write : Chip -> Z -> Z -> Z -> Chip.

Definition mos6522_q800_via1_read (ms : Chip) (addr size : Z) : Z * Chip :=
  let addr := Z.land (Z.shiftr addr 9) 0xf in
  mos6522_read ms addr size.

Definition mos6522_q800_via1_write (ms : Chip) (addr val size : Z) : Chip :=
  let addr := Z.land (Z.shiftr addr 9) 0xf in
  mos6522_write ms addr val size.

Definition mos6522_q800_via2_read (ms : Chip) (addr size : Z) : Z * Chip :=
  let addr := Z.land (Z.shiftr addr 9) 0xf in
  mos6522_read ms addr size.

Definition mos6522_q800_via2_write (ms : Chip) (addr val size : Z) : Chip :=
  let addr := Z.land (Z.shiftr addr 9) 0xf in
  mos6522_write ms addr val size.

End RegisterWindow.

(** ** VIA 1: RTC/PRAM serial engine and ADB *)

Section Via1.

(** The ADB transport (hw/input/adb.c) is not part of this file. [Bus] is
    the state behind [m->adb_bus]; each call returns its [int] result and
    the new bus state, and the two calls that take [&s->sr] also return the
    byte they leave there. *)
Context {Bus : Type}.
Variable adb_send : Bus -> Z -> Z -> Z * Bus.
Variable adb_receive : Bus -> Z -> Z -> Z * Z * Bus.
Variable adb_via_poll : Bus -> Z -> Z -> Z * Z * Bus.

(** [mdc->update_irq], of the generic chip engine. *)
Variable update_irq : MOS6522State -> MOS6522State.

(** The interrupt-flag masks of include/hw/misc/mac_via.h. *)
Variable VIA1_IRQ_VBLANK : Z.
Variable VIA1_IRQ_ONE_SECOND : Z.

(** [MacVIAState], with [last_b] of the enclosing [MOS6522Q800VIA1State]
    and the file-level array [PRAM]. The header that declares the struct is
    not part of the sources read here; the serial fields are taken with the
    widths the code relies on: [data_out], [data_in], [data_in_cnt] and
    [cmd] are bytes, [data_out_cnt], [wprotect] and [alt] are [int]s,
    [tick_offset] is a [uint32_t]. A timer is its expiry time. *)
Record MacVIAState : Type := {
  mos6522_via1 : MOS6522State;
  last_b : Z;
  tick_offset : Z;
  data_out : Z;
  data_out_cnt : Z;
  data_in : Z;
  data_in_cnt : Z;
  cmd : Z;
  wprotect : Z;
  alt : Z;
  adb_bus : Bus;
  adb_poll_timer : Z;
  VBL_timer : Z;
  one_second_timer : Z;
  PRAM : list Z
}.

Definition set_mos6522_via1 (v : MOS6522State) (m : MacVIAState) : MacVIAState :=
  Build_MacVIAState v (last_b m) (tick_offset m) (data_out m) (data_out_cnt m) (data_in m) (data_in_cnt m) (cmd m) (wprotect m) (alt m) (adb_bus m) (adb_poll_timer m) (VBL_timer m) (one_second_timer m) (PRAM m).
Definition set_last_b (v : Z) (m : MacVIAState) : MacVIAState :=
  Build_MacVIAState (mos6522_via1 m) v (tick_offset m) (data_out m) (data_out_cnt m) (data_in m) (data_in_cnt m) (cmd m) (wprotect m) (alt m) (adb_bus m) (adb_poll_timer m) (VBL_timer m) (one_second_timer m) (PRAM m).
Definition set_tick_offset (v : Z) (m : MacVIAState) : MacVIAState :=
  Build_MacVIAState (mos6522_via1 m) (last_b m) v (data_out m) (data_out_cnt m) (data_in m) (data_in_cnt m) (cmd m) (wprotect m) (alt m) (adb_bus m) (adb_poll_timer m) (VBL_timer m) (one_second_timer m) (PRAM m).
Definition set_data_out (v : Z) (m : MacVIAState) : MacVIAState :=
  Build_MacVIAState (mos6522_via1 m) (last_b m) (tick_offset m) v (data_out_cnt m) (data_in m) (data_in_cnt m) (cmd m) (wprotect m) (alt m) (adb_bus m) (adb_poll_timer m) (VBL_timer m) (one_second_timer m) (PRAM m).
Definition set_data_out_cnt (v : Z) (m : MacVIAState) : MacVIAState :=
  Build_MacVIAState (mos6522_via1 m) (last_b m) (tick_offset m) (data_out m) v (data_in m) (data_in_cnt m) (cmd m) (wprotect m) (alt m) (adb_bus m) (adb_poll_timer m) (VBL_timer m) (one_second_timer m) (PRAM m).
Definition set_data_in (v : Z) (m : MacVIAState) : MacVIAState :=
  Build_MacVIAState (mos6522_via1 m) (last_b m) (tick_offset m) (data_out m) (data_out_cnt m) v (data_in_cnt m) (cmd m) (wprotect m) (alt m) (adb_bus m) (adb_poll_timer m) (VBL_timer m) (one_second_timer m) (PRAM m).
Definition set_data_in_cnt (v : Z) (m : MacVIAState) : MacVIAState :=
  Build_MacVIAState (mos6522_via1 m) (last_b m) (tick_offset m) (data_out m) (data_out_cnt m) (data_in m) v (cmd m) (wprotect m) (alt m) (adb_bus m) (adb_poll_timer m) (VBL_timer m) (one_second_timer m) (PRAM m).
Definition set_cmd (v : Z) (m : MacVIAState) : MacVIAState :=
  Build_MacVIAState (mos6522_via1 m) (last_b m) (tick_offset m) (data_out m) (data_out_cnt m) (data_in m) (data_in_cnt m) v (wprotect m) (alt m) (adb_bus m) (adb_poll_timer m) (VBL_timer m) (one_second_timer m) (PRAM m).
Definition set_wprotect (v : Z) (m : MacVIAState) : MacVIAState :=
  Build_MacVIAState (mos6522_via1 m) (last_b m) (tick_offset m) (data_out m) (data_out_cnt m) (data_in m) (data_in_cnt m) (cmd m) v (alt m) (adb_bus m) (adb_poll_timer m) (VBL_timer m) (one_second_timer m) (PRAM m).
Definition set_alt (v : Z) (m : MacVIAState) : MacVIAState :=
  Build_MacVIAState (mos6522_via1 m) (last_b m) (tick_offset m) (data_out m) (data_out_cnt m) (data_in m) (data_in_cnt m) (cmd m) (wprotect m) v (adb_bus m) (adb_poll_timer m) (VBL_timer m) (one_second_timer m) (PRAM m).
Definition set_adb_bus (v : Bus) (m : MacVIAState) : MacVIAState :=
  Build_MacVIAState (mos6522_via1 m) (last_b m) (tick_offset m) (data_out m) (data_out_cnt m) (data_in m) (data_in_cnt m) (cmd m) (wprotect m) (alt m) v (adb_poll_timer m) (VBL_timer m) (one_second_timer m) (PRAM m).
Definition set_adb_poll_timer (v : Z) (m : MacVIAState) : MacVIAState :=
  Build_MacVIAState (mos6522_via1 m) (last_b m) (tick_offset m) (data_out m) (data_out_cnt m) (data_in m) (data_in_cnt m) (cmd m) (wprotect m) (alt m) (adb_bus m) v (VBL_timer m) (one_second_timer m) (PRAM m).
Definition set_VBL_timer (v : Z) (m : MacVIAState) : MacVIAState :=
  Build_MacVIAState (mos6522_via1 m) (last_b m) (tick_offset m) (data_out m) (data_out_cnt m) (data_in m) (data_in_cnt m) (cmd m) (wprotect m) (alt m) (adb_bus m) (adb_poll_timer m) v (one_second_timer m) (PRAM m).
Definition set_one_second_timer (v : Z) (m : MacVIAState) : MacVIAState :=
  Build_MacVIAState (mos6522_via1 m) (last_b m) (tick_offset m) (data_out m) (data_out_cnt m) (data_in m) (data_in_cnt m) (cmd m) (wprotect m) (alt m) (adb_bus m) (adb_poll_timer m) (VBL_timer m) v (PRAM m).
Definition set_PRAM (v : list Z) (m : MacVIAState) : MacVIAState :=
  Build_MacVIAState (mos6522_via1 m) (last_b m) (tick_offset m) (data_out m) (data_out_cnt m) (data_in m) (data_in_cnt m) (cmd m) (wprotect m) (alt m) (adb_bus m) (adb_poll_timer m) (VBL_timer m) (one_second_timer m) v.

(** [PRAM[i]] and [PRAM[i] = v]. Every index the engine computes is below
    88, inside the 256 entries. *)
Definition PRAM_get (m : MacVIAState) (i : Z) : Z :=
  default 0 (PRAM m !! Z.to_nat i).
Definition PRAM_put (i v : Z) (m : MacVIAState) : MacVIAState :=
  set_PRAM (<[Z.to_nat i := u8 v]> (PRAM m)) m.

(** *** [via1_rtc_update] *)

(** The bit stage: one bit moves on a clock edge. *)
Definition rtc_shift (m : MacVIAState) : MacVIAState :=
  let s := mos6522_via1 m in
  if nz (Z.land (dirb s) VIA1B_vRTCData) then
    (* send bits to the RTC *)
    if negb (nz (Z.land (last_b m) VIA1B_vRTCClk)) && nz (Z.land (b s) VIA1B_vRTCClk) then
      let m := set_data_out (u8 (Z.shiftl (data_out m) 1)) m in
      let m := set_data_out (u8 (Z.lor (data_out m) (Z.land (b s) VIA1B_vRTCData))) m in
      set_data_out_cnt (data_out_cnt m + 1) m
    else m
  else
    (* receive bits from the RTC *)
    if nz (Z.land (last_b m) VIA1B_vRTCClk) &&
       negb (nz (Z.land (b s) VIA1B_vRTCClk)) &&
       nz (data_in_cnt m) then
      let s := set_b (u8 (Z.lor (Z.land (b s) (Z.lnot VIA1B_vRTCData))
                                (Z.land (Z.shiftr (data_in m) 7) VIA1B_vRTCData))) s in
      let m := set_mos6522_via1 s m in
      let m := set_data_in (u8 (Z.shiftl (data_in m) 1)) m in
      set_data_in_cnt (u8 (data_in_cnt m - 1)) m
    else m.

(** The first byte of a transaction ([m->cmd == 0]); [now] is
    [qemu_clock_get_ns(QEMU_CLOCK_VIRTUAL)]. *)
Definition rtc_first_byte (now : Z) (m : MacVIAState) : MacVIAState :=
  if nz (Z.land (data_out m) 0x80) then
    (* this is a read command *)
    let time := u32 (tick_offset m + Z.quot now NANOSECONDS_PER_SECOND) in
    if data_out m =? 0x81 then
      set_data_in_cnt 8 (set_data_in (u8 (Z.land time 0xff)) m)
    else if data_out m =? 0x85 then
      set_data_in_cnt 8 (set_data_in (u8 (Z.land (Z.shiftr time 8) 0xff)) m)
    else if data_out m =? 0x89 then
      set_data_in_cnt 8 (set_data_in (u8 (Z.land (Z.shiftr time 16) 0xff)) m)
    else if data_out m =? 0x8d then
      set_data_in_cnt 8 (set_data_in (u8 (Z.land (Z.shiftr time 24) 0xff)) m)
    else if Z.land (data_out m) 0xf3 =? 0xa1 then
      (* PRAM address 0x10 -> 0x13 *)
      let addr := Z.land (Z.shiftr (data_out m) 2) 0x03 in
      set_data_in_cnt 8 (set_data_in (PRAM_get m addr) m)
    else if Z.land (data_out m) 0xf3 =? 0xa1 then
      (* PRAM address 0x00 -> 0x0f *)
      let addr := Z.land (Z.shiftr (data_out m) 2) 0x0f in
      set_data_in_cnt 8 (set_data_in (PRAM_get m addr) m)
    else if Z.land (data_out m) 0xf8 =? 0xb8 then
      (* extended memory designator and sector number *)
      set_cmd (data_out m) m
    else m
  else
    (* this is a write command *)
    set_cmd (data_out m) m.

(** A byte that arrives while a command is latched ([m->cmd != 0]). *)
Definition rtc_second_byte (m : MacVIAState) : MacVIAState :=
  if nz (Z.land (cmd m) 0x80) then
    if Z.land (cmd m) 0xf8 =? 0xb8 then
      (* extended memory designator and sector number *)
      let sector := Z.land (cmd m) 0x07 in
      let addr := Z.land (Z.shiftr (data_out m) 2) 0x1f in
      set_data_in_cnt 8 (set_data_in (PRAM_get m (sector * 8 + addr)) m)
    else m
  else if negb (nz (wprotect m)) then
    (* this is a write command *)
    if nz (alt m) then
      (* extended memory designator and sector number *)
      let sector := Z.land (cmd m) 0x07 in
      let addr := Z.land (Z.shiftr (alt m) 2) 0x1f in
      set_alt 0 (PRAM_put (sector * 8 + addr) (data_out m) m)
    else if cmd m =? 0x01 then m (* seconds register 0: FIXME *)
    else if cmd m =? 0x05 then m (* seconds register 1: FIXME *)
    else if cmd m =? 0x09 then m (* seconds register 2: FIXME *)
    else if cmd m =? 0x0d then m (* seconds register 3: FIXME *)
    else if cmd m =? 0x31 then m (* Test Register *)
    else if cmd m =? 0x35 then
      (* Write Protect register *)
      set_wprotect (Z.land (data_out m) 1) m
    else if Z.land (cmd m) 0xf3 =? 0xa1 then
      (* PRAM address 0x10 -> 0x13 *)
      let addr := Z.land (Z.shiftr (cmd m) 2) 0x03 in
      PRAM_put addr (data_out m) m
    else if Z.land (cmd m) 0xf3 =? 0xa1 then
      (* PRAM address 0x00 -> 0x0f *)
      let addr := Z.land (Z.shiftr (cmd m) 2) 0x0f in
      PRAM_put addr (data_out m) m
    else if Z.land (cmd m) 0xf8 =? 0xb8 then
      (* extended memory designator and sector number *)
      set_alt (cmd m) m
    else m
  else m.

(** The byte stage: the block under [if (m->data_out_cnt == 8)]. *)
Definition rtc_byte (now : Z) (m : MacVIAState) : MacVIAState :=
  if data_out_cnt m =? 8 then
    let m := set_data_out_cnt 0 m in
    let m := if cmd m =? 0 then rtc_first_byte now m else rtc_second_byte m in
    set_data_out 0 m
  else m.

Definition via1_rtc_update (now : Z) (m : MacVIAState) : MacVIAState :=
  if nz (Z.land (b (mos6522_via1 m)) VIA1B_vRTCEnb) then m
  else rtc_byte now (rtc_shift m).

(** *** [via1_adb_update] and [via_adb_poll] *)

Definition adb_state (s : MOS6522State) : Z :=
  Z.shiftr (Z.land (b s) VIA1B_vADB_StateMask) VIA1B_vADB_StateShift.

Definition via1_adb_update (m : MacVIAState) : MacVIAState :=
  let s := mos6522_via1 m in
  let state := adb_state s in
  if nz (Z.land (acr s) VIA1ACR_vShiftOut) then
    (* output mode *)
    let '(ret, bus) := adb_send (adb_bus m) state (sr s) in
    let m := set_adb_bus bus m in
    if ret >? 0 then
      set_mos6522_via1 (set_b (u8 (Z.land (b s) (Z.lnot VIA1B_vADBInt))) s) m
    else
      set_mos6522_via1 (set_b (u8 (Z.lor (b s) VIA1B_vADBInt)) s) m
  else
    (* input mode *)
    let '(ret, byte, bus) := adb_receive (adb_bus m) state (sr s) in
    let m := set_adb_bus bus m in
    let s := set_sr (u8 byte) s in
    if (ret >? 0) && negb (sr s =? 0xff) then
      set_mos6522_via1 (set_b (u8 (Z.land (b s) (Z.lnot VIA1B_vADBInt))) s) m
    else
      set_mos6522_via1 (set_b (u8 (Z.lor (b s) VIA1B_vADBInt)) s) m.

Definition via_adb_poll (now : Z) (m : MacVIAState) : MacVIAState :=
  let s := mos6522_via1 m in
  let m :=
    if nz (Z.land (b s) VIA1B_vADBInt) then
      let state := adb_state s in
      let '(ret, byte, bus) := adb_via_poll (adb_bus m) state (sr s) in
      let m := set_adb_bus bus m in
      let s := set_sr (u8 byte) s in
      if nz ret then
        set_mos6522_via1 (set_b (u8 (Z.land (b s) (Z.lnot VIA1B_vADBInt))) s) m
      else set_mos6522_via1 s m
    else m in
  set_adb_poll_timer (adb_poll_deadline now) m.

(** *** The port-B hook of VIA 1 *)

Definition mos6522_q800_via1_portB_write (now : Z) (m : MacVIAState) : MacVIAState :=
  let m := via1_rtc_update now m in
  let m := via1_adb_update m in
  set_last_b (b (mos6522_via1 m)) m.

(** *** The alarms *)

Definition via1_VBL (now : Z) (m : MacVIAState) : MacVIAState :=
  let s := mos6522_via1 m in
  let s := set_ifr (u8 (Z.lor (ifr s) VIA1_IRQ_VBLANK)) s in
  let s := update_irq s in
  set_VBL_timer (vbl_deadline now) (set_mos6522_via1 s m).

Definition via1_one_second (now_ms : Z) (m : MacVIAState) : MacVIAState :=
  let s := mos6522_via1 m in
  let s := set_ifr (u8 (Z.lor (ifr s) VIA1_IRQ_ONE_SECOND)) s in
  let s := update_irq s in
  set_one_second_timer (one_second_deadline now_ms) (set_mos6522_via1 s m).

(** [mac_via_realize]: the timers are created unarmed (expiry -1) and the
    epoch offset is computed in [uint32_t] from [host_time], the result of
    [mktimegm] on the host's date. *)
Definition mac_via_realize (host_time : Z) (m : MacVIAState) : MacVIAState :=
  let m := set_one_second_timer (-1) m in
  let m := set_VBL_timer (-1) m in
  let m := set_tick_offset (u32 (u32 host_time + RTC_OFFSET)) m in
  set_adb_poll_timer (-1) m.

(** [mac_via_reset]; [now] and [now_ms] are the virtual clock read in
    nanoseconds and in milliseconds. *)
Definition mac_via_reset (now now_ms : Z) (m : MacVIAState) : MacVIAState :=
  let m := set_adb_poll_timer (adb_poll_deadline now) m in
  let m := set_VBL_timer (vbl_deadline now) m in
  set_one_second_timer (one_second_deadline now_ms) m.

(** *** The device in operation *)

(** What happens to the device between two observations. The generic engine
    is not part of this file, so a guest access is taken at its most
    general: it leaves the chip registers in some state [s], and an access
    to port B then runs the hook. The alarms and the reset come with the
    clock reading of the moment. *)
Inductive Via1Event : Type :=
  | EvRegs (s : MOS6522State)
  | EvPortB (now : Z) (s : MOS6522State)
  | EvAdbPoll (now : Z)
  | EvVBL (now : Z)
  | EvOneSecond (now_ms : Z)
  | EvReset (now now_ms : Z).

Definition via1_event (ev : Via1Event) (m : MacVIAState) : MacVIAState :=
  match ev with
  | EvRegs s => set_mos6522_via1 s m
  | EvPortB now s => mos6522_q800_via1_portB_write now (set_mos6522_via1 s m)
  | EvAdbPoll now => via_adb_poll now m
  | EvVBL now => via1_VBL now m
  | EvOneSecond now_ms => via1_one_second now_ms m
  | EvReset now now_ms => mac_via_reset now now_ms m
  end.

Definition via1_run (evs : list Via1Event) (m : MacVIAState) : MacVIAState :=
  fold_left (fun m ev => via1_event ev m) evs m.

(** The guest stores [v] in port B. *)
Definition guest_store_b (now v : Z) (m : MacVIAState) : MacVIAState :=
  mos6522_q800_via1_portB_write now
    (set_mos6522_via1 (set_b (u8 v) (mos6522_via1 m)) m).

(** The guest clocks one bit into the RTC: clock low with the bit on the
    data line, then clock high; RTC enabled, the other lines at 0. *)
Definition rtc_clock_bit (now : Z) (bit : bool) (m : MacVIAState) : MacVIAState :=
  guest_store_b now (Z.lor VIA1B_vRTCClk (Z.b2z bit))
    (guest_store_b now (Z.b2z bit) m).

(** The guest sends byte [d], most significant bit first. *)
Definition rtc_send_byte (now d : Z) (m : MacVIAState) : MacVIAState :=
  fold_left (fun m k => rtc_clock_bit now (Z.testbit d k) m) [7; 6; 5; 4; 3; 2; 1; 0] m.

Definition rtc_send_bytes (now : Z) (ds : list Z) (m : MacVIAState) : MacVIAState :=
  fold_left (fun m d => rtc_send_byte now d m) ds m.

(** The device after creation and reset: the zeroed structure and the zeroed
    static array, with port B at the value [mos6522_q800_via1_reset] gives
    it. *)
Definition power_on (bus : Bus) : MacVIAState :=
  {| mos6522_via1 :=
       Build_MOS6522State
         (Z.lor (Z.lor VIA1B_vADB_StateMask VIA1B_vADBInt) VIA1B_vRTCEnb) 0 0 0 0;
     last_b := 0; tick_offset := 0;
     data_out := 0; data_out_cnt := 0; data_in := 0; data_in_cnt := 0;
     cmd := 0; wprotect := 0; alt := 0;
     adb_bus := bus;
     adb_poll_timer := -1; VBL_timer := -1; one_second_timer := -1;
     PRAM := replicate 256 0 |}.

(** The same once the guest has made the data, clock and enable lines of the
    RTC outputs (direction register B at 0x07). *)
Definition rtc_ready (bus : Bus) : MacVIAState :=
  let m := power_on bus in
  set_mos6522_via1 (set_dirb 0x07 (mos6522_via1 m)) m.

End Via1.

(** ** A silent ADB bus *)

(** A transport with no device attached, for running the model on concrete
    input: nothing is sent or received, the shift register is left alone. *)
Module SilentBus.

Definition adb_send (bus : unit) (state byte : Z) : Z * unit := (0, bus).
Definition adb_receive (bus : unit) (state sr : Z) : Z * Z * unit := (0, sr, bus).
Definition adb_via_poll (bus : unit) (state sr : Z) : Z * Z * unit := (0, sr, bus).

(** The machine with that bus, ready for the serial protocol. *)
Definition machine : @MacVIAState unit := rtc_ready tt.

Definition send_all (now : Z) (ds : list Z) (m : @MacVIAState unit) : @MacVIAState unit :=
  rtc_send_bytes adb_send adb_receive now ds m.

Definition portB_write (now : Z) (m : @MacVIAState unit) : @MacVIAState unit :=
  mos6522_q800_via1_portB_write adb_send adb_receive now m.

(** The machine in the middle of a byte, at the port-B write that delivers
    its last bit: seven bits [acc7] are in [data_out], the clock was low and
    is now high with [bit] on the data line. [c], [wp] and [a] are the
    latched command, the write protection and [alt]. *)
Definition last_bit (acc7 bit c wp a offset : Z) (pram : list Z) : @MacVIAState unit :=
  {| mos6522_via1 := Build_MOS6522State (Z.lor VIA1B_vRTCClk bit) 0x07 0 0 0;
     last_b := bit; tick_offset := offset;
     data_out := acc7; data_out_cnt := 7; data_in := 0; data_in_cnt := 0;
     cmd := c; wprotect := wp; alt := a;
     adb_bus := tt;
     adb_poll_timer := -1; VBL_timer := -1; one_second_timer := -1;
     PRAM := pram |}.

End SilentBus.

(** ** Interrupt request lines *)

Section IrqLines.

(** [mdc->update_irq], of the generic chip engine. *)
Variable update_irq : MOS6522State -> MOS6522State.

(** [via1_irq_request] and [via2_irq_request], the handlers of the named
    input lines of the two chips; [irq] is the number of the line and
    [level] the level driven on it. *)
Definition via1_irq_request (irq level : Z) (s : MOS6522State) : MOS6522State :=
  let s :=
    if nz level then set_ifr (u8 (Z.lor (ifr s) (Z.shiftl 1 irq))) s
    else set_ifr (u8 (Z.land (ifr s) (Z.lnot (Z.shiftl 1 irq)))) s in
  update_irq s.

Definition via2_irq_request (irq level : Z) (s : MOS6522State) : MOS6522State :=
  let s :=
    if nz level then set_ifr (u8 (Z.lor (ifr s) (Z.shiftl 1 irq))) s
    else set_ifr (u8 (Z.land (ifr s) (Z.lnot (Z.shiftl 1 irq)))) s in
  update_irq s.

End IrqLines.

(** ** Chip reset *)

(** [ms->timers[0].frequency] and [ms->timers[1].frequency], kept beside the
    registers. *)
Record MOS6522Timers : Type := {
  frequency0 : Z;
  frequency1 : Z
}.

Section ChipReset.

(** [mdc->parent_reset], the reset of the generic chip engine. *)
Variable parent_reset :
  MOS6522State * MOS6522Timers -> MOS6522State * MOS6522Timers.

Definition mos6522_q800_via1_reset (dev : MOS6522State * MOS6522Timers)
    : MOS6522State * MOS6522Timers :=
  let '(ms, _) := parent_reset dev in
  (set_b (u8 (Z.lor (Z.lor VIA1B_vADB_StateMask VIA1B_vADBInt) VIA1B_vRTCEnb)) ms,
   {| frequency0 := VIA_TIMER_FREQ; frequency1 := VIA_TIMER_FREQ |}).

Definition mos6522_q800_via2_reset (dev : MOS6522State * MOS6522Timers)
    : MOS6522State * MOS6522Timers :=
  let '(ms, _) := parent_reset dev in
  (set_b 0 (set_dirb 0 ms),
   {| frequency0 := VIA_TIMER_FREQ; frequency1 := VIA_TIMER_FREQ |}).

End ChipReset.

(** ** The guest reads a response *)

Section Via1Guest.

Context {Bus : Type}.
Variable adb_send : Bus -> Z -> Z -> Z * Bus.
Variable adb_receive : Bus -> Z -> Z -> Z * Z * Bus.

(** The guest clocks one bit out of the RTC: clock high, then clock low, and
    the bit is read from the data line (bit 0 of port B). *)
Definition rtc_clock_out (now : Z) (m : @MacVIAState Bus) : bool * @MacVIAState Bus :=
  let m := guest_store_b adb_send adb_receive now VIA1B_vRTCClk m in
  let m := guest_store_b adb_send adb_receive now 0 m in
  (Z.testbit (b (mos6522_via1 m)) 0, m).

(** [n] bits clocked out, most significant first, gathered in [acc]. *)
Fixpoint rtc_receive_bits (n : nat) (now : Z) (m : @MacVIAState Bus) (acc : Z)
    : Z * @MacVIAState Bus :=
  match n with
  | O => (acc, m)
  | S n =>
      let '(bit, m) := rtc_clock_out now m in
      rtc_receive_bits n now m (2 * acc + Z.b2z bit)
  end.

Definition rtc_receive_byte (now : Z) (m : @MacVIAState Bus) : Z * @MacVIAState Bus :=
  rtc_receive_bits 8 now m 0.

(** The guest turns the data line round: bit 0 of direction register B is
    cleared, the line becomes an input. *)
Definition rtc_data_input (m : @MacVIAState Bus) : @MacVIAState Bus :=
  let s := mos6522_via1 m in
  set_mos6522_via1 (set_dirb (u8 (Z.land (dirb s) (Z.lnot VIA1B_vRTCData))) s) m.

(** A whole read: the command byte goes out, the line is turned round, the
    response byte comes back. *)
Definition rtc_read_register (now c : Z) (m : @MacVIAState Bus) : Z * @MacVIAState Bus :=
  rtc_receive_byte now (rtc_data_input (rtc_send_byte adb_send adb_receive now c m)).

End Via1Guest.

(** ** Notions the properties are stated with *)

(** The condition of the specification, in its words: the power bit is an output and
    its value goes from 1 (in [prev_b], port B before the write) to 0 (in
    [s], the registers the hook sees). *)
Definition power_falling_edge (prev_b : Z) (s : MOS6522State) : bool :=
  Z.testbit (dirb s) 2 && Z.testbit prev_b 2 && negb (Z.testbit (b s) 2).

(** The formula of the specification: [ceil(t / p) * p]. *)
Definition ceil_multiple (t p : Z) : Z := (t + p - 1) / p * p.

(** The registers of the serial engine, the epoch offset and the parameter
    store: all that [via1_rtc_update] keeps from one call to the next. *)
Definition rtc_regs {Bus : Type} (m : @MacVIAState Bus) :=
  (tick_offset m, data_out m, data_out_cnt m, data_in m, data_in_cnt m,
   cmd m, wprotect m, alt m, PRAM m).

(** [data_out] after one more bit is shifted in from port B value [v]. *)
Definition shift_in (acc v : Z) : Z :=
  u8 (Z.lor (u8 (Z.shiftl acc 1)) (Z.land v VIA1B_vRTCData)).

(** The port-B write that [m] is about to process delivers the eighth bit of
    byte [d]: the RTC is enabled, the data line is an output, the clock
    rises, seven bits are in and the eighth completes [d]. *)
Definition completes_byte {Bus : Type} (m : @MacVIAState Bus) (d : Z) : Prop :=
  let s := mos6522_via1 m in
  Z.testbit (b s) 2 = false /\
  Z.testbit (dirb s) 0 = true /\
  Z.testbit (last_b m) 1 = false /\
  Z.testbit (b s) 1 = true /\
  data_out_cnt m = 7 /\
  shift_in (data_out m) (b s) = d.

(** The seconds counter the read commands sample: [tick_offset] plus the
    whole seconds of the virtual clock, in 32 bits. *)
Definition rtc_seconds {Bus : Type} (m : @MacVIAState Bus) (now : Z) : Z :=
  u32 (tick_offset m + now / NANOSECONDS_PER_SECOND).

(** The byte stage run on a completed byte [d]. *)
Definition byte_step {Bus : Type} (now d : Z) (m : @MacVIAState Bus) : @MacVIAState Bus :=
  rtc_byte now (set_data_out_cnt 8 (set_data_out d m)).

Definition byte_steps {Bus : Type} (now : Z) (ds : list Z) (m : @MacVIAState Bus) : @MacVIAState Bus :=
  fold_left (fun m d => byte_step now d m) ds m.

(** [data_out] after the bits [ks] of [d] are shifted in, in that order. *)
Definition shift_bits (d : Z) (ks : list Z) (acc : Z) : Z :=
  fold_left (fun a k => shift_in a (Z.b2z (Z.testbit d k))) ks acc.

(** What [n] falling clock edges present of the response byte [d], most
    significant bit first, gathered in [acc]; and what is left of [d]. *)
Fixpoint emitted (n : nat) (d acc : Z) : Z :=
  match n with
  | O => acc
  | S n => emitted n (u8 (Z.shiftl d 1)) (2 * acc + Z.b2z (Z.testbit d 7))
  end.

Fixpoint emit_rest (n : nat) (d : Z) : Z :=
  match n with
  | O => d
  | S n => emit_rest n (u8 (Z.shiftl d 1))
  end.

(** The serial registers and the store hold what their C types allow and
    the counters are in step: fewer than eight bits are gathered, at most
    eight are left to send. *)
Definition rtc_wf {Bus : Type} (m : @MacVIAState Bus) : Prop :=
  0 <= data_out m < 256 /\ 0 <= data_out_cnt m < 8 /\
  0 <= data_in m < 256 /\ 0 <= data_in_cnt m <= 8 /\
  0 <= cmd m < 256 /\ 0 <= wprotect m <= 1 /\ 0 <= alt m < 256 /\
  length (PRAM m) = 256%nat /\ Forall (fun x => 0 <= x < 256) (PRAM m).

(** * Properties *)

(** ** Bit-level facts used throughout *)

Lemma land_pow2 (x n : Z) :
  0 <= n -> Z.land x (2 ^ n) = if Z.testbit x n then 2 ^ n else 0.
Proof.
  intros Hn. apply Z.bits_inj'. intros k Hk.
  rewrite Z.land_spec, Z.pow2_bits_eqb by assumption.
  destruct (Z.eqb_spec n k) as [->|Hne].
  - destruct (Z.testbit x k); simpl.
    + rewrite Z.pow2_bits_eqb by assumption. now rewrite Z.eqb_refl.
    + now rewrite Z.bits_0.
  - rewrite andb_false_r.
    destruct (Z.testbit x n).
    + rewrite Z.pow2_bits_eqb by assumption.
      symmetry. now apply Z.eqb_neq.
    + now rewrite Z.bits_0.
Qed.

Lemma nz_land_pow2 (x n : Z) :
  0 <= n -> nz (Z.land x (2 ^ n)) = Z.testbit x n.
Proof.
  intros Hn. unfold nz. rewrite land_pow2 by assumption.
  destruct (Z.testbit x n); [|reflexivity].
  apply negb_true_iff, Z.eqb_neq. apply Z.pow_nonzero; lia.
Qed.

Lemma nz_vRTCEnb (x : Z) : nz (Z.land x VIA1B_vRTCEnb) = Z.testbit x 2.
Proof. exact (nz_land_pow2 x 2 ltac:(lia)). Qed.

Lemma nz_vRTCClk (x : Z) : nz (Z.land x VIA1B_vRTCClk) = Z.testbit x 1.
Proof. exact (nz_land_pow2 x 1 ltac:(lia)). Qed.

Lemma nz_vRTCData (x : Z) : nz (Z.land x VIA1B_vRTCData) = Z.testbit x 0.
Proof. exact (nz_land_pow2 x 0 ltac:(lia)). Qed.

Lemma u8_testbit (x k : Z) :
  0 <= k < 8 -> Z.testbit (u8 x) k = Z.testbit x k.
Proof.
  intros Hk. unfold u8. change 256 with (2 ^ 8).
  apply Z.mod_pow2_bits_low. lia.
Qed.

Lemma u8_range (x : Z) : 0 <= u8 x < 256.
Proof. unfold u8. apply Z.mod_pos_bound. lia. Qed.

Lemma u8_small (x : Z) : 0 <= x < 256 -> u8 x = x.
Proof. unfold u8. apply Z.mod_small. Qed.

(** A check that passes on each of the 256 bytes holds of every byte. *)
Lemma byte_cases (P : Z -> bool) :
  forallb P (map Z.of_nat (seq 0 256)) = true ->
  forall c, 0 <= c < 256 -> P c = true.
Proof.
  intros H c Hc. rewrite forallb_forall in H. apply H.
  apply in_map_iff. exists (Z.to_nat c). split; [lia|].
  apply in_seq. lia.
Qed.

(** The bytes that match the [0xa1] pattern of the PRAM window. *)
Lemma a1_pattern_bytes (c : Z) :
  0 <= c < 256 -> Z.land c 0xf3 = 0xa1 ->
  c = 0xa1 \/ c = 0xa5 \/ c = 0xa9 \/ c = 0xad.
Proof.
  intros Hc Hm.
  pose proof (byte_cases
    (fun c => implb (Z.land c 0xf3 =? 0xa1)
                ((c =? 0xa1) || (c =? 0xa5) || (c =? 0xa9) || (c =? 0xad)))
    ltac:(vm_compute; reflexivity) c Hc) as H.
  cbv beta in H. rewrite Hm in H. change (0xa1 =? 0xa1) with true in H.
  cbn [implb] in H. apply orb_true_iff in H. destruct H as [H|H]; [|right; right; right; lia].
  apply orb_true_iff in H. destruct H as [H|H]; [|right; right; left; lia].
  apply orb_true_iff in H. destruct H as [H|H]; [left; lia|right; left; lia].
Qed.

(** ** Register window *)

(** C8. Two offsets of a chip's window with the same [(o >> 9) & 0xF] are
    forwarded to the generic engine with the same register index, between 0
    and 15: a one-byte read or write at either offset is the same call of
    the engine, for both chip instances. *)
Theorem register_window_alias {Chip : Type}
    (rd : Chip -> Z -> Z -> Z * Chip) (wr : Chip -> Z -> Z -> Z -> Chip)
    (ms : Chip) (o1 o2 val : Z) :
  0 <= o1 < VIA_SIZE -> 0 <= o2 < VIA_SIZE ->
  Z.land (Z.shiftr o1 9) 0xf = Z.land (Z.shiftr o2 9) 0xf ->
  exists reg, 0 <= reg <= 15 /\
    mos6522_q800_via1_read rd ms o1 1 = rd ms reg 1 /\
    mos6522_q800_via1_read rd ms o2 1 = rd ms reg 1 /\
    mos6522_q800_via1_write wr ms o1 val 1 = wr ms reg val 1 /\
    mos6522_q800_via1_write wr ms o2 val 1 = wr ms reg val 1 /\
    mos6522_q800_via2_read rd ms o1 1 = rd ms reg 1 /\
    mos6522_q800_via2_read rd ms o2 1 = rd ms reg 1 /\
    mos6522_q800_via2_write wr ms o1 val 1 = wr ms reg val 1 /\
    mos6522_q800_via2_write wr ms o2 val 1 = wr ms reg val 1.
Proof.
  intros _ _ Heq. exists (Z.land (Z.shiftr o1 9) 0xf).
  split.
  - change 0xf with (Z.ones 4). rewrite Z.land_ones by lia.
    pose proof (Z.mod_pos_bound (Z.shiftr o1 9) (2 ^ 4) ltac:(lia)) as Hb.
    change (2 ^ 4) with 16 in *. change (Z.ones 4) with 15. lia.
  - unfold mos6522_q800_via1_read, mos6522_q800_via1_write,
      mos6522_q800_via2_read, mos6522_q800_via2_write.
    cbv zeta. rewrite <- Heq. repeat split.
Qed.

(** A sixteen-register file standing for the engine: offsets 0x1400 and
    0x15ff both reach register 10, the shift register. *)
Lemma register_window_alias_witness :
  exists reg, 0 <= reg <= 15 /\
    mos6522_q800_via1_read (fun (f : Z -> Z) r _ => (f r, f)) (fun r => r * 3) 0x1400 1
      = (reg * 3, fun r => r * 3) /\
    mos6522_q800_via1_read (fun (f : Z -> Z) r _ => (f r, f)) (fun r => r * 3) 0x15ff 1
      = (reg * 3, fun r => r * 3).
Proof.
  destruct (register_window_alias
              (fun (f : Z -> Z) r _ => (f r, f))
              (fun (f : Z -> Z) r v _ => fun k => if k =? r then v else f k)
              (fun r => r * 3) 0x1400 0x15ff 0)
    as (reg & Hreg & H1 & H2 & _).
  - unfold VIA_SIZE; lia.
  - unfold VIA_SIZE; lia.
  - reflexivity.
  - exists reg. split; [exact Hreg|]. split; [exact H1|exact H2].
Defined.

(** ** Power-off on VIA 2 *)

(** C4, as the code has it. The hook looks at the level of the power bit,
    not at an edge: it issues one shutdown request when the bit is an output
    and reads 0 after the write, whatever it was before, and none when the
    bit is an input or reads 1. *)
Theorem via2_power_off_level (s : MOS6522State) :
  mos6522_q800_via2_portB_write s =
    if Z.testbit (dirb s) 2 && negb (Z.testbit (b s) 2)
    then [SHUTDOWN_CAUSE_GUEST_SHUTDOWN] else [].
Proof.
  unfold mos6522_q800_via2_portB_write, VIA2B_vPower.
  change 4 with (2 ^ 2).
  rewrite nz_land_pow2 by lia.
  rewrite (land_pow2 (b s) 2) by lia.
  destruct (Z.testbit (dirb s) 2), (Z.testbit (b s) 2); reflexivity.
Qed.

(** C4, as the specification states it, fails: with the power bit an output and port B
    at 0 both before and after the write (a 0-to-0 write), the hook still
    issues a shutdown request. *)
Lemma via2_power_off_zero_to_zero :
  ~ (forall (prev_b : Z) (s : MOS6522State),
       mos6522_q800_via2_portB_write s =
         if power_falling_edge prev_b s then [SHUTDOWN_CAUSE_GUEST_SHUTDOWN] else []).
Proof.
  intros H. specialize (H 0 (Build_MOS6522State 0 0x04 0 0 0)).
  discriminate H.
Qed.

(** ** The video-blank deadline *)

Lemma vbl_deadline_eq (now : Z) :
  0 <= now -> vbl_deadline now = (now / 16630 + 1) * 16630.
Proof.
  intros Hnow. unfold vbl_deadline.
  rewrite Z.quot_div_nonneg by lia.
  replace (now + 16630) with (now + 1 * 16630) by lia.
  rewrite Z.div_add by lia. reflexivity.
Qed.

Section Alarms.

Context {Bus : Type}.
Variable update_irq : MOS6522State -> MOS6522State.
Variable VIA1_IRQ_VBLANK : Z.

(** C5, as the code has it. At a virtual time [t >= 0] both the alarm and
    the device reset schedule [(t / 16630 + 1) * 16630]: the smallest
    multiple of 16630 that is strictly greater than [t]. It is at most
    16630 ns away, it is [ceil(t / 16630) * 16630] when [t] is not itself
    a multiple of 16630, and [t + 16630] when it is. *)
Theorem vbl_deadline_next_multiple (t t_ms : Z) (m : @MacVIAState Bus) :
  0 <= t ->
  let d := VBL_timer (via1_VBL update_irq VIA1_IRQ_VBLANK t m) in
  VBL_timer (mac_via_reset t t_ms m) = d /\
  d = (t / 16630 + 1) * 16630 /\
  t < d <= t + 16630 /\
  (forall k, t < k * 16630 -> d <= k * 16630) /\
  (t mod 16630 <> 0 -> d = ceil_multiple t 16630) /\
  (t mod 16630 = 0 -> d = t + 16630).
Proof.
  intros Ht d.
  assert (Hd : d = (t / 16630 + 1) * 16630).
  { subst d. unfold via1_VBL. simpl. now apply vbl_deadline_eq. }
  pose proof (Z.div_mod t 16630 ltac:(lia)) as Hdm.
  pose proof (Z.mod_pos_bound t 16630 ltac:(lia)) as Hmod.
  split; [|split; [exact Hd|]].
  { unfold mac_via_reset. simpl. rewrite Hd. now apply vbl_deadline_eq. }
  split; [lia|]. split; [|split].
  - intros k Hk. rewrite Hd.
    assert (t / 16630 < k) by nia. nia.
  - intros Hne. rewrite Hd. unfold ceil_multiple. f_equal.
    replace (t + 16630 - 1) with ((t mod 16630 - 1) + (t / 16630 + 1) * 16630) by lia.
    rewrite Z.div_add by lia.
    rewrite (Z.div_small (t mod 16630 - 1)) by lia. lia.
  - intros Hz. lia.
Qed.

End Alarms.

(** The alarm fires at 20000 ns: the next deadline is 33260 ns. *)
Lemma vbl_deadline_next_multiple_witness :
  VBL_timer (via1_VBL (fun s => s) 0x02 20000
               (Build_MacVIAState (Bus := unit) (Build_MOS6522State 0 0 0 0 0)
                  0 0 0 0 0 0 0 0 0 tt 0 0 0 [])) = 33260.
Proof.
  pose proof (vbl_deadline_next_multiple (Bus := unit) (fun s => s) 0x02 20000 20
                (Build_MacVIAState (Build_MOS6522State 0 0 0 0 0)
                   0 0 0 0 0 0 0 0 0 tt 0 0 0 []) ltac:(lia)) as H.
  cbv zeta in H. destruct H as (_ & H & _). rewrite H. reflexivity.
Defined.

(** C5, as the specification states it, fails: when the alarm fires exactly on a
    multiple of 16630 ns (here at 16630 ns itself, its first deadline), the
    stated [ceil(t / 16630) * 16630] is [t] again, while the code schedules
    the following multiple, 33260 ns. *)
Lemma vbl_deadline_not_ceil :
  ~ (forall (t : Z) (m : @MacVIAState unit), 0 <= t ->
       VBL_timer (via1_VBL (fun s => s) 0x02 t m) = ceil_multiple t 16630).
Proof.
  intros H.
  specialize (H 16630 (Build_MacVIAState (Build_MOS6522State 0 0 0 0 0)
                         0 0 0 0 0 0 0 0 0 tt 0 0 0 []) ltac:(lia)).
  discriminate H.
Qed.

(** ** VIA 1 *)

Lemma rtc_regs_fields {Bus : Type} (m1 m2 : @MacVIAState Bus) :
  rtc_regs m1 = rtc_regs m2 ->
  tick_offset m1 = tick_offset m2 /\ data_out m1 = data_out m2 /\
  data_out_cnt m1 = data_out_cnt m2 /\ data_in m1 = data_in m2 /\
  data_in_cnt m1 = data_in_cnt m2 /\ cmd m1 = cmd m2 /\
  wprotect m1 = wprotect m2 /\ alt m1 = alt m2 /\ PRAM m1 = PRAM m2.
Proof.
  unfold rtc_regs. intros H. injection H as -> -> -> -> -> -> -> -> ->.
  repeat split.
Qed.

(** Reduces field reads of updated records, and nothing else. *)
Tactic Notation "fields" :=
  cbn [b dirb sr acr ifr set_b set_dirb set_sr set_ifr
       mos6522_via1 last_b tick_offset data_out data_out_cnt data_in
       data_in_cnt cmd wprotect alt adb_bus adb_poll_timer VBL_timer
       one_second_timer PRAM
       set_mos6522_via1 set_last_b set_tick_offset set_data_out
       set_data_out_cnt set_data_in set_data_in_cnt set_cmd set_wprotect
       set_alt set_adb_bus set_adb_poll_timer set_VBL_timer
       set_one_second_timer set_PRAM PRAM_put fst snd negb andb orb].
Tactic Notation "fields" "in" hyp(H) :=
  cbn [b dirb sr acr ifr set_b set_dirb set_sr set_ifr
       mos6522_via1 last_b tick_offset data_out data_out_cnt data_in
       data_in_cnt cmd wprotect alt adb_bus adb_poll_timer VBL_timer
       one_second_timer PRAM
       set_mos6522_via1 set_last_b set_tick_offset set_data_out
       set_data_out_cnt set_data_in set_data_in_cnt set_cmd set_wprotect
       set_alt set_adb_bus set_adb_poll_timer set_VBL_timer
       set_one_second_timer set_PRAM PRAM_put fst snd negb andb orb] in H.
Tactic Notation "fields" "in" "*" :=
  cbn [b dirb sr acr ifr set_b set_dirb set_sr set_ifr
       mos6522_via1 last_b tick_offset data_out data_out_cnt data_in
       data_in_cnt cmd wprotect alt adb_bus adb_poll_timer VBL_timer
       one_second_timer PRAM
       set_mos6522_via1 set_last_b set_tick_offset set_data_out
       set_data_out_cnt set_data_in set_data_in_cnt set_cmd set_wprotect
       set_alt set_adb_bus set_adb_poll_timer set_VBL_timer
       set_one_second_timer set_PRAM PRAM_put fst snd negb andb orb] in *.

(** Splits on the conditions of the code, outermost first. *)
Ltac split_ifs :=
  repeat match goal with
    | |- context [if ?c then _ else _] =>
        lazymatch c with
        | context [if _ then _ else _] => fail
        | _ => destruct c eqn:?
        end
    end.

(** A latched command with its high bit clear matches neither the [0xa1]
    nor the [0xb8] pattern: both have the high bit set. *)
Lemma high_bit_clear_not_a1 (c : Z) :
  nz (Z.land c 0x80) = false -> (Z.land c 0xf3 =? 0xa1) = false.
Proof.
  intros H. change 0x80 with (2 ^ 7) in H. rewrite nz_land_pow2 in H by lia.
  apply Z.eqb_neq. intros E.
  assert (Hb : Z.testbit (Z.land c 0xf3) 7 = Z.testbit 0xa1 7) by now rewrite E.
  rewrite Z.land_spec, H in Hb. discriminate Hb.
Qed.

Lemma high_bit_clear_not_b8 (c : Z) :
  nz (Z.land c 0x80) = false -> (Z.land c 0xf8 =? 0xb8) = false.
Proof.
  intros H. change 0x80 with (2 ^ 7) in H. rewrite nz_land_pow2 in H by lia.
  apply Z.eqb_neq. intros E.
  assert (Hb : Z.testbit (Z.land c 0xf8) 7 = Z.testbit 0xb8 7) by now rewrite E.
  rewrite Z.land_spec, H in Hb. discriminate Hb.
Qed.

(** What the engines do to port B, bit by bit. *)
Lemma b_rtc_data_bits (x d k : Z) :
  1 <= k < 8 ->
  Z.testbit (u8 (Z.lor (Z.land x (Z.lnot VIA1B_vRTCData))
                       (Z.land (Z.shiftr d 7) VIA1B_vRTCData))) k = Z.testbit x k.
Proof.
  intros Hk. unfold VIA1B_vRTCData. rewrite u8_testbit by lia.
  rewrite Z.lor_spec, !Z.land_spec, Z.lnot_spec by lia.
  change 1 with (2 ^ 0) at 1 2. rewrite !Z.pow2_bits_eqb by lia.
  replace (0 =? k) with false by (symmetry; apply Z.eqb_neq; lia).
  simpl. now rewrite andb_true_r, andb_false_r, orb_false_r.
Qed.

Lemma b_adb_clear_bits (x k : Z) :
  0 <= k < 8 ->
  Z.testbit (u8 (Z.land x (Z.lnot VIA1B_vADBInt))) k = Z.testbit x k && negb (k =? 3).
Proof.
  intros Hk. unfold VIA1B_vADBInt. rewrite u8_testbit by lia.
  rewrite Z.land_spec, Z.lnot_spec by lia.
  change 8 with (2 ^ 3). rewrite Z.pow2_bits_eqb by lia.
  now rewrite (Z.eqb_sym 3 k).
Qed.

Lemma b_adb_set_bits (x k : Z) :
  0 <= k < 8 ->
  Z.testbit (u8 (Z.lor x VIA1B_vADBInt)) k = Z.testbit x k || (k =? 3).
Proof.
  intros Hk. unfold VIA1B_vADBInt. rewrite u8_testbit by lia.
  rewrite Z.lor_spec. change 8 with (2 ^ 3). rewrite Z.pow2_bits_eqb by lia.
  now rewrite (Z.eqb_sym 3 k).
Qed.

Lemma adb_state_bits (s : MOS6522State) :
  adb_state s = Z.b2z (Z.testbit (b s) 4) + 2 * Z.b2z (Z.testbit (b s) 5).
Proof.
  unfold adb_state, VIA1B_vADB_StateMask, VIA1B_vADB_StateShift,
    VIA1B_vADBS1, VIA1B_vADBS2.
  rewrite Z.land_lor_distr_r.
  change 0x10 with (2 ^ 4). change 0x20 with (2 ^ 5).
  rewrite !land_pow2 by lia.
  destruct (Z.testbit (b s) 4), (Z.testbit (b s) 5); reflexivity.
Qed.

Section Via1Facts.

Context {Bus : Type}.
Variable adb_send : Bus -> Z -> Z -> Z * Bus.
Variable adb_receive : Bus -> Z -> Z -> Z * Z * Bus.
Variable adb_via_poll : Bus -> Z -> Z -> Z * Z * Bus.

Local Abbreviation State := (@MacVIAState Bus).
Local Abbreviation portB_write := (mos6522_q800_via1_portB_write adb_send adb_receive).

(** *** What each engine leaves alone *)

Lemma rtc_shift_frame (m : State) :
  let m' := rtc_shift m in
  let s := mos6522_via1 m in let s' := mos6522_via1 m' in
  dirb s' = dirb s /\ sr s' = sr s /\ acr s' = acr s /\ ifr s' = ifr s /\
  (forall k, 1 <= k < 8 -> Z.testbit (b s') k = Z.testbit (b s) k) /\
  adb_bus m' = adb_bus m /\ last_b m' = last_b m /\
  tick_offset m' = tick_offset m /\ cmd m' = cmd m /\
  wprotect m' = wprotect m /\ alt m' = alt m /\ PRAM m' = PRAM m.
Proof.
  unfold rtc_shift. split_ifs; simpl; repeat split; auto.
  intros k Hk. now apply b_rtc_data_bits.
Qed.

Lemma rtc_byte_frame (now : Z) (m : State) :
  let m' := rtc_byte now m in
  mos6522_via1 m' = mos6522_via1 m /\ adb_bus m' = adb_bus m /\
  last_b m' = last_b m /\ tick_offset m' = tick_offset m.
Proof.
  unfold rtc_byte, rtc_first_byte, rtc_second_byte.
  split_ifs; simpl; repeat split; auto.
Qed.

Lemma via1_rtc_update_frame (now : Z) (m : State) :
  let m' := via1_rtc_update now m in
  let s := mos6522_via1 m in let s' := mos6522_via1 m' in
  dirb s' = dirb s /\ sr s' = sr s /\ acr s' = acr s /\ ifr s' = ifr s /\
  (forall k, 1 <= k < 8 -> Z.testbit (b s') k = Z.testbit (b s) k) /\
  adb_bus m' = adb_bus m /\ last_b m' = last_b m /\
  tick_offset m' = tick_offset m.
Proof.
  unfold via1_rtc_update.
  destruct (nz (Z.land (b (mos6522_via1 m)) VIA1B_vRTCEnb)).
  { cbv zeta. repeat split; auto. }
  cbv zeta.
  destruct (rtc_byte_frame now (rtc_shift m)) as (-> & -> & -> & ->).
  destruct (rtc_shift_frame m) as (? & ? & ? & ? & ? & ? & ? & ? & _).
  repeat split; auto.
Qed.

Lemma via1_adb_update_frame (m : State) :
  let m' := via1_adb_update adb_send adb_receive m in
  rtc_regs m' = rtc_regs m /\ last_b m' = last_b m /\
  dirb (mos6522_via1 m') = dirb (mos6522_via1 m) /\
  acr (mos6522_via1 m') = acr (mos6522_via1 m) /\
  (forall k, 0 <= k < 8 -> k <> 3 ->
     Z.testbit (b (mos6522_via1 m')) k = Z.testbit (b (mos6522_via1 m)) k).
Proof.
  unfold via1_adb_update. cbv zeta.
  destruct (nz (Z.land (acr (mos6522_via1 m)) VIA1ACR_vShiftOut)).
  - destruct (adb_send _ _ _) as [ret bus].
    destruct (ret >? 0); simpl; repeat split; auto; intros k Hk Hne.
    + rewrite b_adb_clear_bits by lia.
      replace (k =? 3) with false by (symmetry; apply Z.eqb_neq; lia).
      apply andb_true_r.
    + rewrite b_adb_set_bits by lia.
      replace (k =? 3) with false by (symmetry; apply Z.eqb_neq; lia).
      apply orb_false_r.
  - destruct (adb_receive _ _ _) as [[ret byte] bus].
    destruct ((ret >? 0) && _); simpl; repeat split; auto; intros k Hk Hne.
    + rewrite b_adb_clear_bits by lia.
      replace (k =? 3) with false by (symmetry; apply Z.eqb_neq; lia).
      apply andb_true_r.
    + rewrite b_adb_set_bits by lia.
      replace (k =? 3) with false by (symmetry; apply Z.eqb_neq; lia).
      apply orb_false_r.
Qed.

(** *** ADB status bit *)

(** The ADB transaction state is read from bits 4 and 5 of port B, which the
    serial engine never touches. *)
Lemma via1_rtc_update_adb_state (now : Z) (m : State) :
  adb_state (mos6522_via1 (via1_rtc_update now m)) = adb_state (mos6522_via1 m).
Proof.
  destruct (via1_rtc_update_frame now m) as (_ & _ & _ & _ & Hb & _).
  rewrite !adb_state_bits, !Hb by lia. reflexivity.
Qed.

(** C7. After a port-B write of VIA 1 the vADBInt bit (bit 3 of port B) is
    decided by the transport alone. In output mode (ACR bit 4 set) it is
    clear when [adb_send] returned a positive result and set otherwise. In
    input mode it is clear exactly when [adb_receive] returned a positive
    result and the byte it left in the shift register is not 0xFF, and set
    otherwise. After the periodic poll the bit is set exactly when it was
    set before and [adb_via_poll] reported no data: the poll clears it only
    when it was set and the transport has data. *)
Theorem adb_status_bit (now : Z) (m : State) :
  let s := mos6522_via1 m in
  let vADBInt := fun m' : State => Z.testbit (b (mos6522_via1 m')) 3 in
  vADBInt (portB_write now m) =
    (if Z.testbit (acr s) 4 then
       negb (fst (adb_send (adb_bus m) (adb_state s) (sr s)) >? 0)
     else
       let '(ret, byte, _) := adb_receive (adb_bus m) (adb_state s) (sr s) in
       negb ((ret >? 0) && negb (u8 byte =? 0xff))) /\
  vADBInt (via_adb_poll adb_via_poll now m) =
    (vADBInt m &&
     (let '(ret, _, _) := adb_via_poll (adb_bus m) (adb_state s) (sr s) in ret =? 0)).
Proof.
  cbv zeta. split.
  - unfold mos6522_q800_via1_portB_write. cbv zeta.
    destruct (via1_rtc_update_frame now m) as (_ & Hsr & Hacr & _ & _ & Hbus & _).
    pose proof (via1_rtc_update_adb_state now m) as Hst.
    set (m1 := via1_rtc_update now m) in *.
    change (b (mos6522_via1 (set_last_b ?v ?x))) with (b (mos6522_via1 x)).
    unfold via1_adb_update. cbv zeta.
    rewrite Hst, Hsr, Hacr, Hbus. unfold VIA1ACR_vShiftOut.
    change 0x10 with (2 ^ 4). rewrite nz_land_pow2 by lia.
    destruct (Z.testbit (acr (mos6522_via1 m)) 4).
    + destruct (adb_send _ _ _) as [ret bus]. fields.
      destruct (ret >? 0); fields.
      * rewrite b_adb_clear_bits by lia. apply andb_false_r.
      * rewrite b_adb_set_bits by lia. apply orb_true_r.
    + destruct (adb_receive _ _ _) as [[ret byte] bus]. fields.
      destruct ((ret >? 0) && negb (u8 byte =? 255)); fields.
      * rewrite b_adb_clear_bits by lia. apply andb_false_r.
      * rewrite b_adb_set_bits by lia. apply orb_true_r.
  - unfold via_adb_poll. cbv zeta. unfold VIA1B_vADBInt.
    change 0x08 with (2 ^ 3). rewrite nz_land_pow2 by lia.
    destruct (Z.testbit (b (mos6522_via1 m)) 3) eqn:Hbit; fields.
    + destruct (adb_via_poll _ _ _) as [[ret byte] bus].
      unfold nz. destruct (ret =? 0); fields.
      * exact Hbit.
      * change (2 ^ 3) with VIA1B_vADBInt.
        rewrite b_adb_clear_bits by lia. apply andb_false_r.
    + exact Hbit.
Qed.

(** *** The RTC enable gate *)

(** C10. While the RTC-enable bit of port B (bit 2, active low) is set, a
    port-B write leaves the serial registers and the parameter store as they
    were; the write is then exactly the ADB engine run on the state as
    written, followed by the snapshot of port B. *)
Theorem rtc_disabled_frame (now : Z) (m : State) :
  Z.testbit (b (mos6522_via1 m)) 2 = true ->
  let m' := portB_write now m in
  (data_out m', data_out_cnt m', data_in m', data_in_cnt m',
   cmd m', alt m', wprotect m') =
  (data_out m, data_out_cnt m, data_in m, data_in_cnt m,
   cmd m, alt m, wprotect m) /\
  PRAM m' = PRAM m /\
  m' = set_last_b (b (mos6522_via1 (via1_adb_update adb_send adb_receive m)))
         (via1_adb_update adb_send adb_receive m).
Proof.
  intros Hen m'.
  assert (Hm' : m' = set_last_b (b (mos6522_via1 (via1_adb_update adb_send adb_receive m)))
                       (via1_adb_update adb_send adb_receive m)).
  { subst m'. unfold mos6522_q800_via1_portB_write, via1_rtc_update.
    rewrite nz_vRTCEnb. now rewrite Hen. }
  destruct (via1_adb_update_frame m) as (Hregs & _).
  unfold rtc_regs in Hregs. rewrite Hm'.
  change (set_last_b ?v ?x) with
    (Build_MacVIAState (mos6522_via1 x) v (tick_offset x) (data_out x)
       (data_out_cnt x) (data_in x) (data_in_cnt x) (cmd x) (wprotect x) (alt x)
       (adb_bus x) (adb_poll_timer x) (VBL_timer x) (one_second_timer x) (PRAM x)).
  simpl. injection Hregs as -> -> -> -> -> -> -> -> ->.
  repeat split.
Qed.

(** *** Completed bytes *)

(** The serial registers after a port-B write are those the serial engine
    leaves. *)
Lemma portB_write_rtc_regs (now : Z) (m : State) :
  rtc_regs (portB_write now m) = rtc_regs (via1_rtc_update now m).
Proof.
  unfold mos6522_q800_via1_portB_write. cbv zeta.
  destruct (via1_adb_update_frame (via1_rtc_update now m)) as (H & _).
  rewrite <- H. reflexivity.
Qed.

(** On a rising clock edge, RTC enabled and data line an output, the engine
    shifts one bit in and runs the byte stage. *)
Lemma via1_rtc_update_shift (now : Z) (m : State) :
  let s := mos6522_via1 m in
  Z.testbit (b s) 2 = false -> Z.testbit (dirb s) 0 = true ->
  Z.testbit (last_b m) 1 = false -> Z.testbit (b s) 1 = true ->
  via1_rtc_update now m =
    rtc_byte now (set_data_out_cnt (data_out_cnt m + 1)
                    (set_data_out (shift_in (data_out m) (b s)) m)).
Proof.
  intros s Hen Hdir Hlast Hclk. subst s.
  unfold via1_rtc_update, rtc_shift.
  rewrite nz_vRTCEnb, nz_vRTCData, !nz_vRTCClk.
  rewrite Hen, Hdir, Hlast, Hclk. cbn [negb andb]. cbv zeta. fields.
  fold (shift_in (data_out m) (b (mos6522_via1 m))).
  destruct m; reflexivity.
Qed.

(** On the write that completes a byte the byte stage runs on that byte. *)
Lemma via1_rtc_update_completes (now : Z) (m : State) (d : Z) :
  completes_byte m d ->
  via1_rtc_update now m = rtc_byte now (set_data_out_cnt 8 (set_data_out d m)).
Proof.
  intros (Hen & Hdir & Hlast & Hclk & Hcnt & Hd).
  rewrite via1_rtc_update_shift by assumption.
  now rewrite Hcnt, Hd.
Qed.

(** The byte stage, once the condition on the count is resolved. *)
Lemma rtc_byte_at_8 (now : Z) (m : State) (d : Z) :
  rtc_byte now (set_data_out_cnt 8 (set_data_out d m)) =
    set_data_out 0
      (let m0 := set_data_out_cnt 0 (set_data_out d m) in
       if cmd m =? 0 then rtc_first_byte now m0 else rtc_second_byte m0).
Proof. destruct m; reflexivity. Qed.

(** *** Reading the clock *)

Lemma byte_of (x k : Z) :
  0 <= k -> u8 (Z.land (Z.shiftr x (8 * k)) 0xff) = (x / 256 ^ k) mod 256.
Proof.
  intros Hk. change 0xff with (Z.ones 8). rewrite Z.land_ones by lia.
  rewrite Z.shiftr_div_pow2 by lia.
  replace (2 ^ (8 * k)) with (256 ^ k).
  - change (2 ^ 8) with 256. unfold u8. now rewrite Z.mod_mod by lia.
  - change 256 with (2 ^ 8). now rewrite <- Z.pow_mul_r by lia.
Qed.

(** C6. With no command latched, the port-B write that completes the byte
    0x81, 0x85, 0x89 or 0x8D (register [k] = 0, 1, 2, 3) loads [data_in] with
    byte [k] of the 32-bit value [tick_offset + floor(now / 1e9)] and sets
    [data_in_cnt] to 8; the four bytes are the little-endian digits of that
    value, byte 0 least significant. *)
Theorem rtc_read_seconds (now : Z) (m : State) (k : Z) :
  0 <= now -> 0 <= k <= 3 ->
  cmd m = 0 ->
  completes_byte m (0x81 + 4 * k) ->
  let m' := portB_write now m in
  let secs := rtc_seconds m now in
  data_in m' = (secs / 256 ^ k) mod 256 /\
  data_in_cnt m' = 8 /\
  secs = secs mod 256 + 256 * ((secs / 256) mod 256)
         + 65536 * ((secs / 65536) mod 256) + 16777216 * ((secs / 16777216) mod 256).
Proof.
  intros Hnow Hk Hcmd Hbyte m' secs.
  assert (Hregs : rtc_regs m' = rtc_regs (via1_rtc_update now m))
    by apply portB_write_rtc_regs.
  rewrite (via1_rtc_update_completes now m _ Hbyte), rtc_byte_at_8 in Hregs.
  rewrite Hcmd in Hregs. change (0 =? 0) with true in Hregs. cbv zeta in Hregs.
  apply rtc_regs_fields in Hregs.
  destruct Hregs as (_ & _ & _ & Hin & Hcnt & _).
  rewrite Hin, Hcnt. clear Hin Hcnt m'.
  assert (Hsecs : u32 (tick_offset m + Z.quot now NANOSECONDS_PER_SECOND) = secs).
  { unfold secs, rtc_seconds. rewrite Z.quot_div_nonneg; [reflexivity|lia|].
    unfold NANOSECONDS_PER_SECOND; lia. }
  split; [|split].
  - unfold rtc_first_byte. fields. rewrite Hsecs.
    assert (Hcase : k = 0 \/ k = 1 \/ k = 2 \/ k = 3) by lia.
    destruct Hcase as [-> | [-> | [-> | ->]]]; cbn -[u8 u32 Z.land Z.shiftr Z.pow Z.div Z.modulo];
      fields.
    + rewrite <- (byte_of secs 0) by lia. now rewrite Z.shiftr_0_r.
    + now rewrite <- (byte_of secs 1) by lia.
    + now rewrite <- (byte_of secs 2) by lia.
    + now rewrite <- (byte_of secs 3) by lia.
  - unfold rtc_first_byte. fields.
    assert (Hcase : k = 0 \/ k = 1 \/ k = 2 \/ k = 3) by lia.
    destruct Hcase as [-> | [-> | [-> | ->]]]; reflexivity.
  - assert (Hr : 0 <= secs < 4294967296).
    { unfold secs, rtc_seconds, u32. apply Z.mod_pos_bound. lia. }
    clear Hsecs. generalize dependent secs. intros secs Hr.
    pose proof (Z.div_mod secs 256 ltac:(lia)).
    pose proof (Z.div_mod (secs / 256) 256 ltac:(lia)).
    pose proof (Z.div_mod (secs / 256 / 256) 256 ltac:(lia)).
    rewrite Z.div_div in * by lia.
    change (256 * 256) with 65536 in *.
    pose proof (Z.div_mod (secs / 65536) 256 ltac:(lia)) as H4.
    rewrite Z.div_div in * by lia. change (65536 * 256) with 16777216 in *.
    assert (secs / 16777216 < 256).
    { apply Z.div_lt_upper_bound; lia. }
    assert (0 <= secs / 16777216) by (apply Z.div_pos; lia).
    rewrite (Z.mod_small (secs / 16777216) 256) by lia.
    lia.
Qed.

(** *** What the byte stage can and cannot change *)

Ltac dead_branch :=
  match goal with
  | H1 : nz (Z.land ?c 128) = false, H2 : (Z.land ?c 243 =? 161) = true |- _ =>
      rewrite (high_bit_clear_not_a1 c H1) in H2; discriminate H2
  | H1 : nz (Z.land ?c 128) = false, H2 : (Z.land ?c 248 =? 184) = true |- _ =>
      rewrite (high_bit_clear_not_b8 c H1) in H2; discriminate H2
  end.

(** No branch of the byte stage resets a latched command. *)
Lemma rtc_byte_cmd_latched (now : Z) (m : State) :
  cmd m <> 0 -> cmd (rtc_byte now m) = cmd m.
Proof.
  intros Hcmd. apply Z.eqb_neq in Hcmd.
  destruct m. unfold rtc_byte, rtc_second_byte. fields. fields in Hcmd.
  rewrite Hcmd. split_ifs; reflexivity.
Qed.

(** The only assignment of a non-zero value to [alt] sits in a branch no
    command reaches, and without [alt] no byte is stored. *)
Lemma rtc_byte_alt_zero (now : Z) (m : State) :
  alt m = 0 -> alt (rtc_byte now m) = 0 /\ PRAM (rtc_byte now m) = PRAM m.
Proof.
  intros Halt. destruct m. fields in Halt. subst.
  unfold rtc_byte, rtc_first_byte, rtc_second_byte. fields.
  change (nz 0) with false. cbv iota.
  split_ifs; fields; try (split; reflexivity); dead_branch.
Qed.

(** With the store write-protected the byte stage changes neither the store
    nor the protection. *)
Lemma rtc_byte_wprotect (now : Z) (m : State) :
  wprotect m <> 0 ->
  wprotect (rtc_byte now m) = wprotect m /\ PRAM (rtc_byte now m) = PRAM m.
Proof.
  intros Hwp. assert (Hnz : nz (wprotect m) = true).
  { unfold nz. now apply negb_true_iff, Z.eqb_neq. }
  destruct m. fields in Hnz.
  unfold rtc_byte, rtc_first_byte, rtc_second_byte. fields.
  rewrite Hnz. cbn [negb]. cbv iota.
  split_ifs; fields; split; reflexivity.
Qed.

(** The byte stage reads nothing but the serial registers. *)
Lemma rtc_byte_regs (now : Z) (m1 m2 : State) :
  rtc_regs m1 = rtc_regs m2 ->
  rtc_regs (rtc_byte now m1) = rtc_regs (rtc_byte now m2).
Proof.
  intros H. apply rtc_regs_fields in H.
  destruct m1, m2. fields in H.
  destruct H as (-> & -> & -> & -> & -> & -> & -> & -> & ->).
  unfold rtc_byte, rtc_first_byte, rtc_second_byte, PRAM_get. fields.
  split_ifs; reflexivity.
Qed.

(** *** Invariants of the device in operation *)

Variable update_irq : MOS6522State -> MOS6522State.
Variable VIA1_IRQ_VBLANK : Z.
Variable VIA1_IRQ_ONE_SECOND : Z.

Local Abbreviation event :=
  (via1_event adb_send adb_receive adb_via_poll update_irq
     VIA1_IRQ_VBLANK VIA1_IRQ_ONE_SECOND).
Local Abbreviation run :=
  (via1_run adb_send adb_receive adb_via_poll update_irq
     VIA1_IRQ_VBLANK VIA1_IRQ_ONE_SECOND).

(** Only a port-B write reaches the serial registers, through
    [via1_rtc_update]. *)
Lemma via1_event_rtc_regs (ev : Via1Event) (m : State) :
  rtc_regs (event ev m) =
    match ev with
    | EvPortB now s => rtc_regs (via1_rtc_update now (set_mos6522_via1 s m))
    | _ => rtc_regs m
    end.
Proof.
  destruct ev as [s|now s|now|now|now_ms|now now_ms]; try reflexivity.
  - apply portB_write_rtc_regs.
  - unfold via1_event, via_adb_poll. cbv zeta.
    destruct (nz _); [|reflexivity].
    destruct (adb_via_poll _ _ _) as [[ret byte] bus].
    destruct (nz ret); reflexivity.
Qed.

Section Invariant.

(** A property of the serial registers that every run of the serial engine
    keeps is kept by everything that can happen to the device. *)
Variable Inv : State -> Prop.
Hypothesis Inv_regs : forall m1 m2, rtc_regs m1 = rtc_regs m2 -> Inv m1 -> Inv m2.
Hypothesis Inv_update : forall now m, Inv m -> Inv (via1_rtc_update now m).

Lemma via1_event_invariant (ev : Via1Event) (m : State) :
  Inv m -> Inv (event ev m).
Proof.
  intros H. pose proof (via1_event_rtc_regs ev m) as Hev.
  destruct ev as [s|now s|now|now|now_ms|now now_ms];
    try (apply (Inv_regs m); [now symmetry|exact H]).
  apply (Inv_regs (via1_rtc_update now (set_mos6522_via1 s m))); [now symmetry|].
  apply Inv_update. apply (Inv_regs m); [reflexivity|exact H].
Qed.

Lemma via1_run_invariant (evs : list Via1Event) (m : State) :
  Inv m -> Inv (run evs m).
Proof.
  revert m. induction evs as [|ev evs IH]; intros m H.
  - exact H.
  - apply IH. now apply via1_event_invariant.
Qed.

End Invariant.

(** Lifting the three facts on the byte stage to [via1_rtc_update]. *)
Lemma via1_rtc_update_cmd_latched (now : Z) (m : State) :
  cmd m <> 0 -> cmd (via1_rtc_update now m) = cmd m.
Proof.
  intros H. unfold via1_rtc_update. destruct (nz _); [reflexivity|].
  destruct (rtc_shift_frame m) as (_&_&_&_&_&_&_&_& Hc &_).
  rewrite rtc_byte_cmd_latched; [exact Hc|]. now rewrite Hc.
Qed.

Lemma via1_rtc_update_alt_zero (now : Z) (m : State) :
  alt m = 0 ->
  alt (via1_rtc_update now m) = 0 /\ PRAM (via1_rtc_update now m) = PRAM m.
Proof.
  intros H. unfold via1_rtc_update. destruct (nz _); [now split|].
  destruct (rtc_shift_frame m) as (_&_&_&_&_&_&_&_&_&_& Ha & Hp).
  destruct (rtc_byte_alt_zero now (rtc_shift m)) as [H1 H2]; [now rewrite Ha|].
  split; [exact H1|]. now rewrite H2.
Qed.

Lemma via1_rtc_update_wprotect (now : Z) (m : State) :
  wprotect m <> 0 ->
  wprotect (via1_rtc_update now m) = wprotect m /\
  PRAM (via1_rtc_update now m) = PRAM m.
Proof.
  intros H. unfold via1_rtc_update. destruct (nz _); [now split|].
  destruct (rtc_shift_frame m) as (_&_&_&_&_&_&_&_&_& Hw & _ & Hp).
  destruct (rtc_byte_wprotect now (rtc_shift m)) as [H1 H2]; [now rewrite Hw|].
  split; [now rewrite H1|now rewrite H2].
Qed.

(** Once a command is latched it stays latched, whatever happens next. *)
Lemma cmd_latched_forever (evs : list Via1Event) (m : State) :
  cmd m <> 0 -> cmd (run evs m) = cmd m.
Proof.
  intros H.
  apply (via1_run_invariant (fun m' => cmd m' = cmd m)); [| |reflexivity].
  - intros m1 m2 Hr. apply rtc_regs_fields in Hr.
    destruct Hr as (_&_&_&_&_& <- &_). auto.
  - intros now m' Hm'. rewrite via1_rtc_update_cmd_latched; [exact Hm'|].
    now rewrite Hm'.
Qed.

(** With [alt] at 0 the store is never written, whatever happens next. *)
Lemma pram_never_written (evs : list Via1Event) (m : State) :
  alt m = 0 -> alt (run evs m) = 0 /\ PRAM (run evs m) = PRAM m.
Proof.
  intros H.
  apply (via1_run_invariant (fun m' => alt m' = 0 /\ PRAM m' = PRAM m));
    [| |now split].
  - intros m1 m2 Hr. apply rtc_regs_fields in Hr.
    destruct Hr as (_&_&_&_&_&_&_& <- & <-). auto.
  - intros now m' [Ha Hp].
    destruct (via1_rtc_update_alt_zero now m' Ha) as [H1 H2].
    split; [exact H1|]. now rewrite H2.
Qed.

(** Once set, the write protection stays set and the store stays as it is,
    whatever happens next. *)
Lemma wprotect_forever (evs : list Via1Event) (m : State) :
  wprotect m <> 0 ->
  wprotect (run evs m) = wprotect m /\ PRAM (run evs m) = PRAM m.
Proof.
  intros H.
  apply (via1_run_invariant
           (fun m' => wprotect m' = wprotect m /\ PRAM m' = PRAM m));
    [| |now split].
  - intros m1 m2 Hr. apply rtc_regs_fields in Hr.
    destruct Hr as (_&_&_&_&_&_& <- &_& <-). auto.
  - intros now m' [Hw Hp].
    destruct (via1_rtc_update_wprotect now m') as [H1 H2]; [now rewrite Hw|].
    split; [now rewrite H1|now rewrite H2].
Qed.

(** *** The serial protocol, byte by byte *)

Lemma completes_byte_range (m : State) (d : Z) :
  completes_byte m d -> 0 <= d < 256.
Proof. intros (_&_&_&_&_& <-). apply u8_range. Qed.

(** The serial registers after the port-B write that completes byte [d]. *)
Lemma portB_write_completes (now : Z) (m : State) (d : Z) :
  completes_byte m d ->
  rtc_regs (portB_write now m) =
    rtc_regs (set_data_out 0
      (let m0 := set_data_out_cnt 0 (set_data_out d m) in
       if cmd m =? 0 then rtc_first_byte now m0 else rtc_second_byte m0)).
Proof.
  intros H. rewrite portB_write_rtc_regs, (via1_rtc_update_completes now m d H).
  now rewrite rtc_byte_at_8.
Qed.

(** In the situation of a completed write continuation (a write command
    latched, the store not write-protected, a byte just completed) the
    port-B write leaves the command latched as it was: no branch of the
    write continuation resets it. *)
Lemma rtc_write_keeps_cmd (now : Z) (m : State) (d : Z) :
  completes_byte m d ->
  cmd m <> 0 -> Z.testbit (cmd m) 7 = false -> wprotect m = 0 ->
  cmd (portB_write now m) = cmd m.
Proof.
  intros Hb Hcmd _ _.
  pose proof (portB_write_rtc_regs now m) as Hr. apply rtc_regs_fields in Hr.
  destruct Hr as (_&_&_&_&_& -> &_). now apply via1_rtc_update_cmd_latched.
Qed.

(** The data byte of a [0x35] transaction with bit
    0 set turns the write protection on. From then on the store is never
    written and the protection is never turned off again, whatever the
    guest sends: the [0x35] handler itself sits behind the protection test. *)
Lemma wprotect_set_is_permanent (now : Z) (m : State) (d : Z) (evs : list Via1Event) :
  completes_byte m d ->
  cmd m = 0x35 -> wprotect m = 0 -> alt m = 0 -> Z.testbit d 0 = true ->
  let m1 := portB_write now m in
  wprotect m1 = 1 /\ PRAM m1 = PRAM m /\
  wprotect (run evs m1) = 1 /\ PRAM (run evs m1) = PRAM m.
Proof.
  intros Hb Hcmd Hwp Halt Hbit m1.
  pose proof (portB_write_completes now m d Hb) as Hr.
  rewrite Hcmd in Hr. change (0x35 =? 0) with false in Hr. cbv zeta in Hr.
  apply rtc_regs_fields in Hr. destruct Hr as (_&_&_&_&_&_& Hw &_& Hp).
  fold m1 in Hw, Hp.
  assert (Hw1 : wprotect m1 = 1).
  { rewrite Hw. destruct m. fields in Hcmd. fields in Hwp. fields in Halt. subst.
    unfold rtc_second_byte. fields.
    change (Z.land d 1) with (Z.land d (2 ^ 0)).
    rewrite land_pow2, Hbit by lia. reflexivity. }
  assert (Hp1 : PRAM m1 = PRAM m).
  { rewrite Hp. destruct m. fields in Hcmd. fields in Hwp. fields in Halt. subst.
    reflexivity. }
  destruct (wprotect_forever evs m1) as [H1 H2]; [lia|].
  repeat split; congruence.
Qed.

(** The extended write itself, were [alt] ever set. With a write command
    latched (non-zero, high bit clear), the store not write-protected and
    [alt] non-zero, the completed data byte is stored at
    [sector * 8 + ((alt >> 2) & 0x1f)], [sector] being the low three bits of
    the command, and [alt] is cleared; after that no byte is stored any
    more, whatever the guest sends, since [alt] stays 0. *)
Lemma extended_write_step (now : Z) (m : State) (d : Z) (evs : list Via1Event) :
  completes_byte m d ->
  cmd m <> 0 -> Z.testbit (cmd m) 7 = false -> wprotect m = 0 -> alt m <> 0 ->
  let m' := portB_write now m in
  let sector := Z.land (cmd m) 0x07 in
  let addr := Z.land (Z.shiftr (alt m) 2) 0x1f in
  0 <= sector * 8 + addr < 256 /\
  PRAM m' = <[Z.to_nat (sector * 8 + addr) := d]> (PRAM m) /\
  alt m' = 0 /\
  PRAM (run evs m') = PRAM m'.
Proof.
  intros Hb Hcmd Hhi Hwp Halt m' sector addr.
  pose proof (completes_byte_range m d Hb) as Hd.
  pose proof (portB_write_completes now m d Hb) as Hr.
  apply Z.eqb_neq in Hcmd. rewrite Hcmd in Hr. cbv zeta in Hr.
  apply rtc_regs_fields in Hr. destruct Hr as (_&_&_&_&_&_&_& Ha & Hp).
  fold m' in Ha, Hp.
  assert (Hnzalt : nz (alt m) = true).
  { unfold nz. now apply negb_true_iff, Z.eqb_neq. }
  assert (Hnhi : nz (Z.land (cmd m) 0x80) = false).
  { change 0x80 with (2 ^ 7). now rewrite nz_land_pow2 by lia. }
  assert (Ha' : alt m' = 0).
  { rewrite Ha. destruct m. fields in Hwp. fields in Hnzalt. fields in Hnhi. subst.
    unfold rtc_second_byte. fields. rewrite Hnhi, Hnzalt. reflexivity. }
  split; [|split; [|split; [exact Ha'|]]].
  - subst sector addr.
    change 0x07 with (Z.ones 3). change 0x1f with (Z.ones 5).
    rewrite !Z.land_ones by lia.
    pose proof (Z.mod_pos_bound (cmd m) (2 ^ 3) ltac:(lia)).
    pose proof (Z.mod_pos_bound (Z.shiftr (alt m) 2) (2 ^ 5) ltac:(lia)).
    change (2 ^ 3) with 8 in *. change (2 ^ 5) with 32 in *. lia.
  - rewrite Hp. subst sector addr.
    destruct m. fields in Hwp. fields in Hnzalt. fields in Hnhi. subst.
    unfold rtc_second_byte. fields. rewrite Hnhi, Hnzalt.
    change (nz 0) with false. fields.
    now rewrite (u8_small d Hd).
  - now apply pram_never_written.
Qed.

(** The read half of the window rule. A byte [c] with [(c & 0xf3) == 0xa1]
    that arrives with no command latched is a read of the four-entry
    window: [data_in] is [PRAM[(c >> 2) & 3]] and [data_in_cnt] is 8. The
    address of the sixteen-entry rule would be [(c >> 2) & 0xf], which is 8
    higher, and is not used. The byte is not latched and the store is left
    as it is. *)
Theorem pram_window_precedence (now : Z) (m : State) (c : Z) :
  Z.land c 0xf3 = 0xa1 -> cmd m = 0 -> completes_byte m c ->
  let m' := portB_write now m in
  let addr := Z.land (Z.shiftr c 2) 0x03 in
  data_in m' = PRAM_get m addr /\ data_in_cnt m' = 8 /\
  Z.land (Z.shiftr c 2) 0x0f = 8 + addr /\
  cmd m' = 0 /\ PRAM m' = PRAM m.
Proof.
  intros Hm Hcmd Hb m' addr.
  pose proof (completes_byte_range m c Hb) as Hc.
  pose proof (portB_write_completes now m c Hb) as Hr.
  rewrite Hcmd in Hr. change (0 =? 0) with true in Hr. cbv zeta in Hr.
  apply rtc_regs_fields in Hr. destruct Hr as (_&_&_& Hin & Hcnt & Hc' &_&_& Hp).
  fold m' in Hin, Hcnt, Hc', Hp. rewrite Hin, Hcnt, Hc', Hp. subst addr.
  destruct m. fields in Hcmd. subst.
  destruct (a1_pattern_bytes c Hc Hm) as [-> | [-> | [-> | ->]]];
    repeat split.
Qed.

(** *** From clock edges to bytes *)

Local Abbreviation store_b := (guest_store_b adb_send adb_receive).
Local Abbreviation clock_bit := (rtc_clock_bit adb_send adb_receive).
Local Abbreviation send_byte := (rtc_send_byte adb_send adb_receive).

Lemma rtc_regs_set_via1 (s : MOS6522State) (m : State) :
  rtc_regs (set_mos6522_via1 s m) = rtc_regs m.
Proof. reflexivity. Qed.

Lemma rtc_regs_set_shift (c a : Z) (m1 m2 : State) :
  rtc_regs m1 = rtc_regs m2 ->
  rtc_regs (set_data_out_cnt c (set_data_out a m1)) =
  rtc_regs (set_data_out_cnt c (set_data_out a m2)).
Proof.
  intros H. apply rtc_regs_fields in H.
  destruct H as (H1 & _ & _ & H4 & H5 & H6 & H7 & H8 & H9).
  unfold rtc_regs. fields. congruence.
Qed.

Lemma rtc_byte_idle (now : Z) (m : State) :
  data_out_cnt m <> 8 -> rtc_byte now m = m.
Proof.
  intros H. unfold rtc_byte. apply Z.eqb_neq in H. now rewrite H.
Qed.

Lemma byte_step_ready (now d : Z) (m : State) :
  data_out_cnt (byte_step now d m) = 0 /\ data_out (byte_step now d m) = 0.
Proof.
  unfold byte_step. rewrite rtc_byte_at_8. cbv zeta.
  destruct m. unfold rtc_first_byte, rtc_second_byte. fields.
  split_ifs; split; reflexivity.
Qed.

Lemma byte_step_regs (now d : Z) (m1 m2 : State) :
  rtc_regs m1 = rtc_regs m2 ->
  rtc_regs (byte_step now d m1) = rtc_regs (byte_step now d m2).
Proof.
  intros H. unfold byte_step. now apply rtc_byte_regs, rtc_regs_set_shift.
Qed.

(** A store to port B: the serial registers are those [via1_rtc_update]
    leaves, the direction register is kept, and the snapshot takes the clock
    bit just written. *)
Lemma store_b_facts (now v : Z) (m : State) :
  let m0 := set_mos6522_via1 (set_b (u8 v) (mos6522_via1 m)) m in
  rtc_regs (store_b now v m) = rtc_regs (via1_rtc_update now m0) /\
  dirb (mos6522_via1 (store_b now v m)) = dirb (mos6522_via1 m) /\
  Z.testbit (last_b (store_b now v m)) 1 = Z.testbit v 1.
Proof.
  intros m0. unfold guest_store_b. fold m0.
  split; [apply portB_write_rtc_regs|].
  unfold mos6522_q800_via1_portB_write. cbv zeta. fields.
  destruct (via1_adb_update_frame (via1_rtc_update now m0)) as (_ & _ & Hd & _ & Hb).
  destruct (via1_rtc_update_frame now m0) as (Hd' & _ & _ & _ & Hb' & _).
  split.
  - rewrite Hd, Hd'. reflexivity.
  - rewrite Hb, Hb' by lia. unfold m0. fields. apply u8_testbit. lia.
Qed.

(** One clock pulse shifts one bit in and, on the eighth, runs the byte
    stage. *)
Lemma clock_bit_regs (now : Z) (bit : bool) (m : State) :
  Z.testbit (dirb (mos6522_via1 m)) 0 = true ->
  data_out_cnt m <> 8 ->
  rtc_regs (clock_bit now bit m) =
    rtc_regs (rtc_byte now
                (set_data_out_cnt (data_out_cnt m + 1)
                   (set_data_out (shift_in (data_out m) (Z.b2z bit)) m))) /\
  dirb (mos6522_via1 (clock_bit now bit m)) = dirb (mos6522_via1 m).
Proof.
  intros Hdir Hcnt. unfold rtc_clock_bit.
  set (hi := Z.lor VIA1B_vRTCClk (Z.b2z bit)).
  (* clock low *)
  destruct (store_b_facts now (Z.b2z bit) m) as (Hr1 & Hd1 & Hl1).
  set (m1 := store_b now (Z.b2z bit) m) in *.
  assert (Hlo : via1_rtc_update now
                  (set_mos6522_via1 (set_b (u8 (Z.b2z bit)) (mos6522_via1 m)) m)
                = set_mos6522_via1 (set_b (u8 (Z.b2z bit)) (mos6522_via1 m)) m).
  { unfold via1_rtc_update, rtc_shift. fields.
    rewrite nz_vRTCEnb, nz_vRTCData, !nz_vRTCClk, Hdir.
    replace (Z.testbit (u8 (Z.b2z bit)) 2) with false by (destruct bit; reflexivity).
    replace (Z.testbit (u8 (Z.b2z bit)) 1) with false by (destruct bit; reflexivity).
    rewrite andb_false_r. apply rtc_byte_idle. exact Hcnt. }
  rewrite Hlo, rtc_regs_set_via1 in Hr1.
  assert (Hl1' : Z.testbit (last_b m1) 1 = false).
  { rewrite Hl1. destruct bit; reflexivity. }
  (* clock high *)
  destruct (store_b_facts now hi m1) as (Hr2 & Hd2 & _).
  split; [|now rewrite Hd2, Hd1].
  rewrite Hr2. clear Hr2.
  set (m1' := set_mos6522_via1 (set_b (u8 hi) (mos6522_via1 m1)) m1).
  assert (Hhi : via1_rtc_update now m1' =
                rtc_byte now
                  (set_data_out_cnt (data_out_cnt m1 + 1)
                     (set_data_out (shift_in (data_out m1) (Z.b2z bit)) m1'))).
  { rewrite via1_rtc_update_shift; unfold m1'; fields.
    - f_equal. f_equal. f_equal. unfold shift_in. destruct bit; reflexivity.
    - destruct bit; reflexivity.
    - now rewrite Hd1.
    - exact Hl1'.
    - destruct bit; reflexivity. }
  rewrite Hhi. apply rtc_byte_regs.
  pose proof Hr1 as Hf. apply rtc_regs_fields in Hf.
  destruct Hf as (_ & -> & -> & _).
  apply rtc_regs_set_shift. exact Hr1.
Qed.

Lemma shift_bits_byte (d : Z) :
  0 <= d < 256 ->
  shift_in (shift_bits d [7; 6; 5; 4; 3; 2; 1] 0) (Z.b2z (Z.testbit d 0)) = d.
Proof.
  intros Hd. apply Z.eqb_eq.
  apply (byte_cases
           (fun d => shift_in (shift_bits d [7; 6; 5; 4; 3; 2; 1] 0)
                       (Z.b2z (Z.testbit d 0)) =? d)); [|exact Hd].
  vm_compute. reflexivity.
Qed.

Lemma rtc_regs_set_shift_twice (c c' a a' : Z) (m : State) :
  rtc_regs (set_data_out_cnt c (set_data_out a (set_data_out_cnt c' (set_data_out a' m))))
  = rtc_regs (set_data_out_cnt c (set_data_out a m)).
Proof. reflexivity. Qed.

(** Fewer than eight pulses only fill [data_out]. *)
Lemma clock_bits_regs (now d : Z) (ks : list Z) :
  forall m : State,
  Z.testbit (dirb (mos6522_via1 m)) 0 = true ->
  0 <= data_out_cnt m -> data_out_cnt m + Z.of_nat (length ks) < 8 ->
  let m' := fold_left (fun m k => clock_bit now (Z.testbit d k) m) ks m in
  rtc_regs m' =
    rtc_regs (set_data_out_cnt (data_out_cnt m + Z.of_nat (length ks))
                (set_data_out (shift_bits d ks (data_out m)) m)) /\
  dirb (mos6522_via1 m') = dirb (mos6522_via1 m).
Proof.
  induction ks as [|k ks IH]; intros m Hdir H0 Hlen.
  - cbn [fold_left length shift_bits]. split; [|reflexivity].
    destruct m. unfold rtc_regs. fields. now rewrite Z.add_0_r.
  - cbn [length] in Hlen. cbn [fold_left]. cbv zeta. unfold shift_bits. cbn [fold_left].
    fold (shift_bits d ks (shift_in (data_out m) (Z.b2z (Z.testbit d k)))).
    destruct (clock_bit_regs now (Z.testbit d k) m Hdir ltac:(lia)) as [Hr Hd].
    rewrite rtc_byte_idle in Hr by (fields; lia).
    set (m1 := clock_bit now (Z.testbit d k) m) in *.
    pose proof Hr as Hf. apply rtc_regs_fields in Hf. fields in Hf.
    destruct Hf as (_ & Hdo & Hcnt & _).
    destruct (IH m1) as [Hr' Hd']; [now rewrite Hd|lia|lia|].
    cbv zeta in Hr', Hd'. split; [|now rewrite Hd', Hd].
    rewrite Hr', Hcnt, Hdo.
    rewrite (rtc_regs_set_shift _ _ _ _ Hr), rtc_regs_set_shift_twice.
    replace (data_out_cnt m + Z.of_nat (length (k :: ks)))
      with (data_out_cnt m + 1 + Z.of_nat (length ks)) by (cbn [length]; lia).
    reflexivity.
Qed.

(** The eight pulses of a byte run the byte stage on that byte. *)
Lemma send_byte_regs (now d : Z) (m : State) :
  0 <= d < 256 ->
  Z.testbit (dirb (mos6522_via1 m)) 0 = true ->
  data_out_cnt m = 0 -> data_out m = 0 ->
  rtc_regs (send_byte now d m) = rtc_regs (byte_step now d m) /\
  dirb (mos6522_via1 (send_byte now d m)) = dirb (mos6522_via1 m).
Proof.
  intros Hd Hdir Hcnt Hdo.
  change (send_byte now d m) with
    (clock_bit now (Z.testbit d 0)
       (fold_left (fun m k => clock_bit now (Z.testbit d k) m) [7; 6; 5; 4; 3; 2; 1] m)).
  destruct (clock_bits_regs now d [7; 6; 5; 4; 3; 2; 1] m Hdir) as [Hr7 Hd7];
    [lia|cbn [length]; lia|].
  cbv zeta in Hr7, Hd7.
  set (m7 := fold_left _ _ m) in *.
  rewrite Hcnt, Hdo in Hr7. cbn [length] in Hr7.
  change (0 + Z.of_nat 7) with 7 in Hr7.
  pose proof Hr7 as Hf. apply rtc_regs_fields in Hf. fields in Hf.
  destruct Hf as (_ & Hdo7 & Hcnt7 & _).
  destruct (clock_bit_regs now (Z.testbit d 0) m7) as [Hr Hd8];
    [now rewrite Hd7|lia|].
  split; [|now rewrite Hd8, Hd7].
  rewrite Hr, Hcnt7, Hdo7, (shift_bits_byte d Hd). change (7 + 1) with 8.
  unfold byte_step. apply rtc_byte_regs.
  rewrite (rtc_regs_set_shift _ _ _ _ Hr7). apply rtc_regs_set_shift_twice.
Qed.

(** The bit-serial protocol is the byte-level machine: sending the bytes
    [ds] over the clock and data lines leaves the serial registers as the
    byte stage run on each byte in turn leaves them. *)
Lemma send_bytes_regs (now : Z) (ds : list Z) :
  forall m M : State,
  Forall (fun d => 0 <= d < 256) ds ->
  rtc_regs m = rtc_regs M ->
  Z.testbit (dirb (mos6522_via1 m)) 0 = true ->
  data_out_cnt m = 0 -> data_out m = 0 ->
  rtc_regs (rtc_send_bytes adb_send adb_receive now ds m) =
  rtc_regs (byte_steps now ds M).
Proof.
  induction ds as [|d ds IH]; intros m M Hds Hregs Hdir Hcnt Hdo.
  - exact Hregs.
  - inversion Hds as [|? ? Hd Hds']; subst.
    unfold rtc_send_bytes, byte_steps. cbn [fold_left].
    destruct (send_byte_regs now d m Hd Hdir Hcnt Hdo) as [Hr Hd'].
    destruct (byte_step_ready now d m) as [Hc1 Hd1].
    pose proof Hr as Hf. apply rtc_regs_fields in Hf.
    destruct Hf as (_ & Hdo' & Hcnt' & _).
    apply IH.
    + exact Hds'.
    + rewrite Hr. now apply byte_step_regs.
    + now rewrite Hd'.
    + now rewrite Hcnt'.
    + now rewrite Hdo'.
Qed.

(** End to end: clocking the byte 0x81 into an idle engine stages the low
    byte of the seconds counter as the response. *)
Lemma rtc_seconds_end_to_end (now : Z) (m : State) :
  0 <= now ->
  Z.testbit (dirb (mos6522_via1 m)) 0 = true ->
  cmd m = 0 -> data_out_cnt m = 0 -> data_out m = 0 ->
  let m' := send_byte now 0x81 m in
  data_in m' = rtc_seconds m now mod 256 /\ data_in_cnt m' = 8.
Proof.
  intros Hnow Hdir Hcmd Hcnt Hdo m'.
  destruct (send_byte_regs now 0x81 m ltac:(lia) Hdir Hcnt Hdo) as [Hr _].
  fold m' in Hr. unfold byte_step in Hr. rewrite rtc_byte_at_8 in Hr.
  rewrite Hcmd in Hr. change (0 =? 0) with true in Hr. cbv zeta in Hr.
  apply rtc_regs_fields in Hr. destruct Hr as (_&_&_& Hin & Hc &_).
  rewrite Hin, Hc. unfold rtc_first_byte. fields.
  change (nz (Z.land 0x81 0x80)) with true. change (0x81 =? 0x81) with true.
  fields. split; [|reflexivity].
  unfold rtc_seconds. rewrite Z.quot_div_nonneg by (unfold NANOSECONDS_PER_SECOND; lia).
  change 0xff with (Z.ones 8). rewrite Z.land_ones by lia.
  change (2 ^ 8) with 256. unfold u8. now rewrite Z.mod_mod by lia.
Qed.

Lemma nz_vADBInt (x : Z) : nz (Z.land x VIA1B_vADBInt) = Z.testbit x 3.
Proof. exact (nz_land_pow2 x 3 ltac:(lia)). Qed.

(** *** What the rest of the device leaves alone *)

(** X4. Only a port-B write with the RTC enabled reaches the serial engine:
    register accesses that do not run the hook, port-B writes with the
    RTC-enable bit set, the ADB poll, the two alarms and the device reset
    all leave the serial registers, the epoch offset and the parameter store
    as they were. *)
Theorem serial_state_frame (ev : Via1Event) (m : State) :
  match ev with
  | EvPortB _ s => Z.testbit (b s) 2 = true
  | _ => True
  end ->
  rtc_regs (event ev m) = rtc_regs m.
Proof.
  intros H. rewrite via1_event_rtc_regs.
  destruct ev as [s|now s|now|now|now_ms|now now_ms]; try reflexivity.
  unfold via1_rtc_update. fields. rewrite nz_vRTCEnb, H. reflexivity.
Qed.

(** X5. Nothing the guest or the alarms do changes the epoch offset: the
    clock the read commands sample cannot be set through the device, the
    write-seconds commands included. *)
Theorem tick_offset_never_changes (evs : list Via1Event) (m : State) :
  tick_offset (run evs m) = tick_offset m.
Proof.
  apply (via1_run_invariant (fun m' => tick_offset m' = tick_offset m));
    [| |reflexivity].
  - intros m1 m2 Hr. apply rtc_regs_fields in Hr.
    destruct Hr as (<- & _). auto.
  - intros now m' Hm'.
    destruct (via1_rtc_update_frame now m') as (_&_&_&_&_&_&_& ->).
    exact Hm'.
Qed.

(** *** Edges, not levels *)

Lemma rtc_byte_cnt_not_8 (now : Z) (m : State) :
  data_out_cnt (rtc_byte now m) <> 8.
Proof.
  unfold rtc_byte. destruct (data_out_cnt m =? 8) eqn:E.
  - cbv zeta. destruct m. unfold rtc_first_byte, rtc_second_byte. fields.
    split_ifs; fields; discriminate.
  - now apply Z.eqb_neq.
Qed.

(** X6. The engine is driven by clock edges: storing the same value in port
    B a second time moves no bit and runs no command, whatever the value
    and whatever the state. *)
Theorem repeated_store_is_idle (now1 now2 v : Z) (m : State) :
  rtc_regs (store_b now2 v (store_b now1 v m)) = rtc_regs (store_b now1 v m).
Proof.
  destruct (store_b_facts now1 v m) as (Hr1 & Hd1 & Hl1).
  set (m1 := store_b now1 v m) in *.
  destruct (store_b_facts now2 v m1) as (Hr2 & _).
  rewrite Hr2. clear Hr2.
  set (m1' := set_mos6522_via1 (set_b (u8 v) (mos6522_via1 m1)) m1).
  change (rtc_regs m1) with (rtc_regs m1').
  unfold via1_rtc_update. rewrite nz_vRTCEnb.
  destruct (Z.testbit (b (mos6522_via1 m1')) 2) eqn:Hen; [reflexivity|].
  assert (Hshift : rtc_shift m1' = m1').
  { assert (Hl : Z.testbit (last_b m1') 1 = Z.testbit v 1) by exact Hl1.
    assert (Hb : Z.testbit (b (mos6522_via1 m1')) 1 = Z.testbit v 1)
      by (unfold m1'; fields; apply u8_testbit; lia).
    unfold rtc_shift. rewrite nz_vRTCData, !nz_vRTCClk, Hl, Hb.
    destruct (Z.testbit (dirb (mos6522_via1 m1')) 0), (Z.testbit v 1); reflexivity. }
  rewrite Hshift. rewrite rtc_byte_idle; [reflexivity|].
  assert (Hcnt : data_out_cnt m1' =
                 data_out_cnt (via1_rtc_update now1
                   (set_mos6522_via1 (set_b (u8 v) (mos6522_via1 m)) m))).
  { apply rtc_regs_fields in Hr1. destruct Hr1 as (_&_& Hc &_). exact Hc. }
  rewrite Hcnt. unfold via1_rtc_update. rewrite nz_vRTCEnb. fields.
  unfold m1' in Hen. fields in Hen. rewrite Hen.
  apply rtc_byte_cnt_not_8.
Qed.

(** *** Port B after the hook *)

(** X7. The port-B hook of VIA 1 rewrites port B in two places only: bit 3,
    the ADB interrupt bit, and bit 0, the RTC data line, the latter only
    when that line is an input. Every other bit is as the guest wrote it,
    the direction and auxiliary control registers are kept, and the
    snapshot the next edge is measured against is port B as the hook left
    it. *)
Theorem portB_write_port_bits (now : Z) (m : State) :
  let m' := portB_write now m in
  let s := mos6522_via1 m in let s' := mos6522_via1 m' in
  (forall k, 0 <= k < 8 -> k <> 0 -> k <> 3 -> Z.testbit (b s') k = Z.testbit (b s) k) /\
  (Z.testbit (dirb s) 0 = true -> Z.testbit (b s') 0 = Z.testbit (b s) 0) /\
  dirb s' = dirb s /\ acr s' = acr s /\
  last_b m' = b s'.
Proof.
  intros m' s s'. subst m' s s'.
  unfold mos6522_q800_via1_portB_write. cbv zeta. fields.
  destruct (via1_adb_update_frame (via1_rtc_update now m)) as (_ & _ & Hd & Ha & Hb).
  destruct (via1_rtc_update_frame now m) as (Hd' & _ & Ha' & _ & Hb' & _).
  split; [|split; [|split; [|split]]].
  - intros k Hk H0 H3. rewrite Hb, Hb' by lia. reflexivity.
  - intros Hdir. rewrite Hb by lia.
    unfold via1_rtc_update.
    destruct (nz (Z.land (b (mos6522_via1 m)) VIA1B_vRTCEnb)); [reflexivity|].
    destruct (rtc_byte_frame now (rtc_shift m)) as (-> & _).
    unfold rtc_shift. rewrite nz_vRTCData, Hdir.
    destruct (negb _ && _); reflexivity.
  - now rewrite Hd, Hd'.
  - now rewrite Ha, Ha'.
  - reflexivity.
Qed.

(** X8. The ADB poll re-arms itself 20 ms (a fiftieth of a second) after
    the time it runs at, leaves the serial engine alone and changes no bit
    of port B but the interrupt bit; when that bit is already clear the
    transport is not consulted, so the chip registers and the bus are
    exactly as before. *)
Theorem adb_poll_frame (now : Z) (m : State) :
  let m' := via_adb_poll adb_via_poll now m in
  adb_poll_timer m' = now + 20000000 /\
  rtc_regs m' = rtc_regs m /\ last_b m' = last_b m /\
  (forall k, 0 <= k < 8 -> k <> 3 ->
     Z.testbit (b (mos6522_via1 m')) k = Z.testbit (b (mos6522_via1 m)) k) /\
  (Z.testbit (b (mos6522_via1 m)) 3 = false ->
     mos6522_via1 m' = mos6522_via1 m /\ adb_bus m' = adb_bus m).
Proof.
  intros m'. subst m'. unfold via_adb_poll. cbv zeta.
  rewrite nz_vADBInt.
  destruct (Z.testbit (b (mos6522_via1 m)) 3) eqn:Hbit.
  - destruct (adb_via_poll _ _ _) as [[ret byte] bus].
    destruct (nz ret); fields; repeat split; try discriminate.
    intros k Hk Hne. rewrite b_adb_clear_bits by lia.
    replace (k =? 3) with false by (symmetry; apply Z.eqb_neq; lia).
    apply andb_true_r.
  - fields. repeat split.
Qed.

(** *** Bits and bytes *)

Lemma byte_steps_ready (now : Z) (ds : list Z) :
  forall m : State,
  data_out_cnt m = 0 -> data_out m = 0 ->
  data_out_cnt (byte_steps now ds m) = 0 /\ data_out (byte_steps now ds m) = 0.
Proof.
  induction ds as [|d ds IH]; intros m Hcnt Hdo.
  - now split.
  - change (byte_steps now (d :: ds) m) with (byte_steps now ds (byte_step now d m)).
    destruct (byte_step_ready now d m) as [Hc1 Hd1]. now apply IH.
Qed.

(** X9. The bit-serial protocol implements the byte-level machine. From an
    engine between bytes with the data line an output, clocking the bytes
    [ds] in over the clock and data lines, most significant bit first,
    leaves the serial registers and the store exactly as the byte stage run
    once on each byte leaves them, and the engine is between bytes again. *)
Theorem serial_link_is_byte_machine (now : Z) (ds : list Z) (m : State) :
  Forall (fun d => 0 <= d < 256) ds ->
  Z.testbit (dirb (mos6522_via1 m)) 0 = true ->
  data_out_cnt m = 0 -> data_out m = 0 ->
  let m' := rtc_send_bytes adb_send adb_receive now ds m in
  rtc_regs m' = rtc_regs (byte_steps now ds m) /\
  data_out_cnt m' = 0 /\ data_out m' = 0.
Proof.
  intros Hds Hdir Hcnt Hdo m'.
  assert (Hr : rtc_regs m' = rtc_regs (byte_steps now ds m))
    by (apply send_bytes_regs; auto).
  split; [exact Hr|].
  apply rtc_regs_fields in Hr. destruct Hr as (_ & -> & -> & _).
  destruct (byte_steps_ready now ds m Hcnt Hdo) as [H1 H2]. now split.
Qed.

(** *** Bytes that select nothing, and extended reads *)

(** X10. A first byte that matches no rule is consumed without effect: the
    zero byte, or a byte with the high bit set that is none of the four
    seconds registers and matches neither the [0xa1] nor the [0xb8] pattern,
    latches no command and stages no response; only the bit accumulator is
    cleared for the next byte. *)
Theorem unknown_byte_ignored (now : Z) (m : State) (d : Z) :
  completes_byte m d -> cmd m = 0 ->
  d = 0 \/
  (Z.testbit d 7 = true /\
   d <> 0x81 /\ d <> 0x85 /\ d <> 0x89 /\ d <> 0x8d /\
   Z.land d 0xf3 <> 0xa1 /\ Z.land d 0xf8 <> 0xb8) ->
  rtc_regs (portB_write now m) = rtc_regs (set_data_out_cnt 0 (set_data_out 0 m)).
Proof.
  intros Hb Hcmd Hd.
  rewrite (portB_write_completes now m d Hb), Hcmd.
  change (0 =? 0) with true. cbv zeta.
  destruct m. fields in Hcmd. subst. unfold rtc_first_byte. fields.
  destruct Hd as [-> | (H7 & H1 & H2 & H3 & H4 & Ha & Hx)]; [reflexivity|].
  change 0x80 with (2 ^ 7). rewrite nz_land_pow2, H7 by lia.
  apply Z.eqb_neq in H1, H2, H3, H4, Ha, Hx.
  rewrite H1, H2, H3, H4, Ha, Hx. reflexivity.
Qed.

(** X11. With a [0xb8]-pattern command latched, every completed byte [d] is
    an extended read: the response is the store entry at
    [sector * 8 + ((d >> 2) & 0x1f)], an address below 88 and so inside the
    256 entries, with eight bits to send. The command stays latched and the
    store and the write protection are untouched; being write-protected does
    not stop the read. *)
Theorem extended_read (now : Z) (m : State) (d : Z) :
  completes_byte m d -> Z.land (cmd m) 0xf8 = 0xb8 ->
  let m' := portB_write now m in
  let addr := Z.land (cmd m) 0x07 * 8 + Z.land (Z.shiftr d 2) 0x1f in
  0 <= addr < 88 /\
  data_in m' = PRAM_get m addr /\ data_in_cnt m' = 8 /\
  cmd m' = cmd m /\ PRAM m' = PRAM m /\ wprotect m' = wprotect m.
Proof.
  intros Hb Hpat m' addr.
  assert (Hhi : nz (Z.land (cmd m) 0x80) = true).
  { change 0x80 with (2 ^ 7). rewrite nz_land_pow2 by lia.
    assert (E : Z.testbit (Z.land (cmd m) 0xf8) 7 = Z.testbit 0xb8 7) by now rewrite Hpat.
    rewrite Z.land_spec in E. now rewrite andb_true_r in E. }
  assert (Hnz : (cmd m =? 0) = false).
  { apply Z.eqb_neq. intros E. rewrite E in Hpat. discriminate Hpat. }
  pose proof (portB_write_completes now m d Hb) as Hr.
  rewrite Hnz in Hr. cbv zeta in Hr.
  apply rtc_regs_fields in Hr.
  destruct Hr as (_&_&_& Hin & Hcnt & Hc & Hw &_& Hp).
  fold m' in Hin, Hcnt, Hc, Hw, Hp. rewrite Hin, Hcnt, Hc, Hw, Hp.
  apply Z.eqb_eq in Hpat.
  split.
  - subst addr. change 0x07 with (Z.ones 3). change 0x1f with (Z.ones 5).
    rewrite !Z.land_ones by lia.
    pose proof (Z.mod_pos_bound (cmd m) (2 ^ 3) ltac:(lia)).
    pose proof (Z.mod_pos_bound (Z.shiftr d 2) (2 ^ 5) ltac:(lia)).
    change (2 ^ 3) with 8 in *. change (2 ^ 5) with 32 in *. lia.
  - destruct m. fields in Hhi. fields in Hpat.
    unfold rtc_second_byte. fields. rewrite Hhi, Hpat. fields.
    repeat split.
Qed.

(** *** Well-formed serial state *)

Lemma PRAM_get_range (m : State) (i : Z) :
  Forall (fun x => 0 <= x < 256) (PRAM m) -> 0 <= PRAM_get m i < 256.
Proof.
  intros H. unfold PRAM_get.
  destruct (PRAM m !! Z.to_nat i) as [x|] eqn:E; cbn [default]; [|lia].
  rewrite Forall_lookup in H. exact (H _ _ E).
Qed.

Lemma land_1_range (d : Z) : 0 <= Z.land d 1 <= 1.
Proof.
  pose proof (land_pow2 d 0 ltac:(lia)) as H. change (2 ^ 0) with 1 in H.
  rewrite H. destruct (Z.testbit d 0); lia.
Qed.

Ltac wf_goals :=
  repeat match goal with
    | |- _ /\ _ => split
    end;
  try assumption; try lia;
  try (match goal with |- context [u8 ?x] => pose proof (u8_range x); lia end);
  try (match goal with |- context [Z.land ?d 1] => pose proof (land_1_range d); lia end).

Lemma rtc_first_byte_wf (now : Z) (m : State) :
  rtc_wf m -> rtc_wf (rtc_first_byte now m).
Proof.
  intros H. pose proof H as (H1&H2&H3&H4&H5&H6&H7&H8&H9).
  pose proof (fun i => PRAM_get_range m i H9) as Hget.
  unfold rtc_first_byte. split_ifs; try exact H;
    unfold rtc_wf; fields; wf_goals;
    try (match goal with |- context [PRAM_get m ?i] =>
                           pose proof (Hget i); lia end).
Qed.

Lemma rtc_second_byte_wf (m : State) :
  rtc_wf m -> rtc_wf (rtc_second_byte m).
Proof.
  intros H. pose proof H as (H1&H2&H3&H4&H5&H6&H7&H8&H9).
  pose proof (fun i => PRAM_get_range m i H9) as Hget.
  unfold rtc_second_byte. split_ifs; try exact H;
    unfold rtc_wf; fields; wf_goals;
    try (match goal with |- context [PRAM_get m ?i] =>
                           pose proof (Hget i); lia end);
    try (rewrite length_insert; assumption);
    try (apply Forall_insert; [assumption|apply u8_range]).
Qed.

Lemma rtc_wf_set_cnt (c : Z) (m : State) :
  rtc_wf (set_data_out_cnt 0 m) -> 0 <= c < 8 -> rtc_wf (set_data_out_cnt c m).
Proof.
  unfold rtc_wf. fields. intros (H1&H2&H3&H4&H5&H6&H7&H8&H9) Hc. wf_goals.
Qed.

Lemma rtc_byte_wf (now : Z) (m : State) :
  rtc_wf (set_data_out_cnt 0 m) -> 0 <= data_out_cnt m <= 8 ->
  rtc_wf (rtc_byte now m).
Proof.
  intros H Hc. unfold rtc_byte.
  destruct (data_out_cnt m =? 8) eqn:E.
  - cbv zeta.
    assert (Hd : rtc_wf (if cmd (set_data_out_cnt 0 m) =? 0
                         then rtc_first_byte now (set_data_out_cnt 0 m)
                         else rtc_second_byte (set_data_out_cnt 0 m))).
    { destruct (cmd (set_data_out_cnt 0 m) =? 0);
        [now apply rtc_first_byte_wf|now apply rtc_second_byte_wf]. }
    revert Hd. generalize (if cmd (set_data_out_cnt 0 m) =? 0
                           then rtc_first_byte now (set_data_out_cnt 0 m)
                           else rtc_second_byte (set_data_out_cnt 0 m)).
    intros m0. unfold rtc_wf. fields.
    intros (H1&H2&H3&H4&H5&H6&H7&H8&H9). wf_goals.
  - apply Z.eqb_neq in E.
    replace m with (set_data_out_cnt (data_out_cnt m) m) by (destruct m; reflexivity).
    apply rtc_wf_set_cnt; [exact H|fields; lia].
Qed.

Lemma rtc_shift_wf (m : State) :
  rtc_wf m ->
  rtc_wf (set_data_out_cnt 0 (rtc_shift m)) /\
  0 <= data_out_cnt (rtc_shift m) <= 8.
Proof.
  intros (H1&H2&H3&H4&H5&H6&H7&H8&H9).
  unfold rtc_shift. split_ifs; unfold rtc_wf; fields; wf_goals.
  assert (data_in_cnt m <> 0).
  { match goal with H : _ && nz (data_in_cnt m) = true |- _ =>
      apply andb_true_iff in H; destruct H as [_ H];
      unfold nz in H; apply negb_true_iff, Z.eqb_neq in H; exact H end. }
  rewrite u8_small by lia. lia.
Qed.

Lemma via1_rtc_update_wf (now : Z) (m : State) :
  rtc_wf m -> rtc_wf (via1_rtc_update now m).
Proof.
  intros H. unfold via1_rtc_update. destruct (nz _); [exact H|].
  destruct (rtc_shift_wf m H) as [Hs Hc]. now apply rtc_byte_wf.
Qed.

(** X12. The serial state stays well formed, whatever happens to the
    device: after any sequence of guest accesses, alarms, polls and resets
    fewer than eight bits are gathered in [data_out], at most eight are left
    to send from [data_in], the byte registers hold bytes, the write
    protection is 0 or 1, and the store still has its 256 entries, all
    bytes. *)
Theorem rtc_wf_preserved (evs : list Via1Event) (m : State) :
  rtc_wf m -> rtc_wf (run evs m).
Proof.
  apply (via1_run_invariant rtc_wf).
  - intros m1 m2 Hr. apply rtc_regs_fields in Hr.
    destruct Hr as (_ & E1 & E2 & E3 & E4 & E5 & E6 & E7 & E8).
    unfold rtc_wf. now rewrite E1, E2, E3, E4, E5, E6, E7, E8.
  - intros now m'. apply via1_rtc_update_wf.
Qed.

(** *** Reading the response *)

Local Abbreviation clock_out := (rtc_clock_out adb_send adb_receive).
Local Abbreviation receive_bits := (rtc_receive_bits adb_send adb_receive).
Local Abbreviation receive_byte := (rtc_receive_byte adb_send adb_receive).
Local Abbreviation read_register := (rtc_read_register adb_send adb_receive).

(** On a falling clock edge, RTC enabled, data line an input and a response
    pending, the engine presents the top bit of [data_in] on the data line
    and moves on to the next. *)
Lemma via1_rtc_update_emit (now : Z) (m : State) :
  let s := mos6522_via1 m in
  Z.testbit (b s) 2 = false -> Z.testbit (dirb s) 0 = false ->
  Z.testbit (last_b m) 1 = true -> Z.testbit (b s) 1 = false ->
  data_in_cnt m <> 0 -> data_out_cnt m <> 8 ->
  via1_rtc_update now m =
    set_data_in_cnt (u8 (data_in_cnt m - 1))
      (set_data_in (u8 (Z.shiftl (data_in m) 1))
         (set_mos6522_via1
            (set_b (u8 (Z.lor (Z.land (b s) (Z.lnot VIA1B_vRTCData))
                              (Z.land (Z.shiftr (data_in m) 7) VIA1B_vRTCData))) s) m)).
Proof.
  intros s Hen Hdir Hlast Hclk Hin Hout. subst s.
  unfold via1_rtc_update, rtc_shift.
  rewrite nz_vRTCEnb, nz_vRTCData, !nz_vRTCClk, Hen, Hdir, Hlast, Hclk.
  assert (Hnz : nz (data_in_cnt m) = true)
    by (unfold nz; now apply negb_true_iff, Z.eqb_neq).
  rewrite Hnz. cbn [negb andb]. cbv zeta. fields.
  apply rtc_byte_idle. fields. exact Hout.
Qed.

Lemma store_b_port_bits (now v k : Z) (m : State) :
  0 <= k < 8 -> k <> 3 ->
  Z.testbit (b (mos6522_via1 (store_b now v m))) k =
  Z.testbit (b (mos6522_via1 (via1_rtc_update now
      (set_mos6522_via1 (set_b (u8 v) (mos6522_via1 m)) m)))) k.
Proof.
  intros Hk Hne. unfold guest_store_b, mos6522_q800_via1_portB_write.
  cbv zeta. fields.
  destruct (via1_adb_update_frame
              (via1_rtc_update now
                 (set_mos6522_via1 (set_b (u8 v) (mos6522_via1 m)) m)))
    as (_ & _ & _ & _ & Hb).
  now apply Hb.
Qed.

(** Clock high in input mode: nothing moves, the snapshot takes the clock. *)
Lemma clock_high_facts (now : Z) (m : State) :
  Z.testbit (dirb (mos6522_via1 m)) 0 = false ->
  data_out_cnt m <> 8 ->
  let m1 := store_b now VIA1B_vRTCClk m in
  rtc_regs m1 = rtc_regs m /\
  dirb (mos6522_via1 m1) = dirb (mos6522_via1 m) /\
  Z.testbit (last_b m1) 1 = true.
Proof.
  intros Hdir Hout m1. subst m1.
  destruct (store_b_facts now VIA1B_vRTCClk m) as (Hr1 & Hd1 & Hl1).
  split; [|split; [exact Hd1|exact Hl1]].
  rewrite Hr1. unfold via1_rtc_update, rtc_shift. fields.
  rewrite nz_vRTCEnb, nz_vRTCData, !nz_vRTCClk, Hdir.
  replace (Z.testbit (u8 VIA1B_vRTCClk) 2) with false by reflexivity.
  replace (Z.testbit (u8 VIA1B_vRTCClk) 1) with true by reflexivity.
  cbn [negb]. rewrite andb_false_r. cbn [andb].
  rewrite rtc_byte_idle by exact Hout. reflexivity.
Qed.

(** Clock low after clock high: the top bit of the response is on the data
    line and the response moves on. *)
Lemma clock_low_facts (now : Z) (m : State) :
  Z.testbit (dirb (mos6522_via1 m)) 0 = false ->
  Z.testbit (last_b m) 1 = true ->
  data_out_cnt m <> 8 -> 0 < data_in_cnt m <= 8 ->
  let m2 := store_b now 0 m in
  Z.testbit (b (mos6522_via1 m2)) 0 = Z.testbit (data_in m) 7 /\
  rtc_regs m2 =
    rtc_regs (set_data_in_cnt (data_in_cnt m - 1)
                (set_data_in (u8 (Z.shiftl (data_in m) 1)) m)) /\
  dirb (mos6522_via1 m2) = dirb (mos6522_via1 m).
Proof.
  intros Hdir Hlast Hout Hin m2. subst m2.
  destruct (store_b_facts now 0 m) as (Hr2 & Hd2 & _).
  pose proof (store_b_port_bits now 0 0 m ltac:(lia) ltac:(lia)) as Hb0.
  pose proof (via1_rtc_update_emit now
                (set_mos6522_via1 (set_b (u8 0) (mos6522_via1 m)) m)) as Hlo.
  cbv zeta in Hlo. fields in Hlo.
  specialize (Hlo eq_refl Hdir Hlast eq_refl ltac:(lia) Hout).
  rewrite Hlo in Hr2, Hb0. fields in Hb0.
  split; [|split; [|exact Hd2]].
  - rewrite Hb0, u8_testbit by lia.
    rewrite Z.lor_spec, !Z.land_spec, Z.shiftr_spec by lia.
    replace (Z.testbit (u8 0) 0) with false by reflexivity.
    replace (Z.testbit VIA1B_vRTCData 0) with true by reflexivity.
    cbn [andb orb]. now rewrite andb_true_r.
  - rewrite Hr2. unfold rtc_regs. fields.
    now rewrite (u8_small (data_in_cnt m - 1)) by lia.
Qed.

(** One clock pulse in input mode brings out the top bit of the response. *)
Lemma clock_out_facts (now : Z) (m : State) :
  Z.testbit (dirb (mos6522_via1 m)) 0 = false ->
  data_out_cnt m <> 8 -> 0 < data_in_cnt m <= 8 ->
  fst (clock_out now m) = Z.testbit (data_in m) 7 /\
  rtc_regs (snd (clock_out now m)) =
    rtc_regs (set_data_in_cnt (data_in_cnt m - 1)
                (set_data_in (u8 (Z.shiftl (data_in m) 1)) m)) /\
  dirb (mos6522_via1 (snd (clock_out now m))) = dirb (mos6522_via1 m).
Proof.
  intros Hdir Hout Hin. unfold rtc_clock_out. cbv zeta. cbn [fst snd].
  destruct (clock_high_facts now m Hdir Hout) as (Hr1 & Hd1 & Hl1).
  cbv zeta in Hr1, Hd1, Hl1.
  generalize dependent (store_b now VIA1B_vRTCClk m). intros m1 Hr1 Hd1 Hl1.
  apply rtc_regs_fields in Hr1.
  destruct Hr1 as (E0 & E1 & E2 & E3 & E4 & E5 & E6 & E7 & E8).
  destruct (clock_low_facts now m1) as (Hb & Hr2 & Hd2);
    [now rewrite Hd1|exact Hl1|now rewrite E2|rewrite E4; lia|].
  cbv zeta in Hb, Hr2, Hd2.
  split; [now rewrite Hb, E3|]. split; [|now rewrite Hd2, Hd1].
  rewrite Hr2. unfold rtc_regs. fields.
  now rewrite E0, E1, E2, E3, E4, E5, E6, E7, E8.
Qed.

Lemma receive_bits_facts (now : Z) (n : nat) :
  forall (m : State) (acc : Z),
  Z.testbit (dirb (mos6522_via1 m)) 0 = false ->
  data_out_cnt m <> 8 -> Z.of_nat n <= data_in_cnt m <= 8 ->
  fst (receive_bits n now m acc) = emitted n (data_in m) acc /\
  rtc_regs (snd (receive_bits n now m acc)) =
    rtc_regs (set_data_in_cnt (data_in_cnt m - Z.of_nat n)
                (set_data_in (emit_rest n (data_in m)) m)) /\
  dirb (mos6522_via1 (snd (receive_bits n now m acc))) = dirb (mos6522_via1 m).
Proof.
  induction n as [|n IH]; intros m acc Hdir Hout Hin.
  - cbn [rtc_receive_bits emitted emit_rest fst snd]. split; [reflexivity|].
    split; [|reflexivity]. destruct m. unfold rtc_regs. fields.
    now rewrite Z.sub_0_r.
  - cbn [rtc_receive_bits emitted emit_rest].
    destruct (clock_out_facts now m Hdir Hout ltac:(lia)) as (Hbit & Hr & Hd).
    destruct (clock_out now m) as [bit m1]. cbn [fst snd] in Hbit, Hr, Hd.
    pose proof Hr as Hf. apply rtc_regs_fields in Hf. fields in Hf.
    destruct Hf as (E0 & E1 & E2 & E3 & E4 & E5 & E6 & E7 & E8).
    destruct (IH m1 (2 * acc + Z.b2z bit)) as (Ha & Hb & Hc);
      [now rewrite Hd|now rewrite E2|rewrite E4; lia|].
    split; [|split].
    + rewrite Ha, E3, Hbit. reflexivity.
    + rewrite Hb. unfold rtc_regs. fields.
      rewrite E0, E1, E2, E3, E4, E5, E6, E7, E8.
      replace (data_in_cnt m - 1 - Z.of_nat n)
        with (data_in_cnt m - Z.of_nat (S n)) by lia.
      reflexivity.
    + now rewrite Hc, Hd.
Qed.

Lemma emitted_byte (d : Z) :
  0 <= d < 256 -> emitted 8 d 0 = d /\ emit_rest 8 d = 0.
Proof.
  intros Hd.
  pose proof (byte_cases (fun d => (emitted 8 d 0 =? d) && (emit_rest 8 d =? 0))
                ltac:(vm_compute; reflexivity) d Hd) as H.
  cbv beta in H. apply andb_true_iff in H. destruct H as [H1 H2].
  split; [now apply Z.eqb_eq|now apply Z.eqb_eq].
Qed.

Lemma receive_byte_facts (now : Z) (m : State) :
  Z.testbit (dirb (mos6522_via1 m)) 0 = false ->
  data_out_cnt m <> 8 -> data_in_cnt m = 8 -> 0 <= data_in m < 256 ->
  fst (receive_byte now m) = data_in m /\
  rtc_regs (snd (receive_byte now m)) =
    rtc_regs (set_data_in_cnt 0 (set_data_in 0 m)).
Proof.
  intros Hdir Hout Hcnt Hin. unfold rtc_receive_byte.
  destruct (receive_bits_facts now 8 m 0 Hdir Hout) as (Ha & Hb & _).
  { rewrite Hcnt. cbn. lia. }
  destruct (emitted_byte (data_in m) Hin) as [E1 E2].
  split; [now rewrite Ha|].
  rewrite Hb, E2, Hcnt. reflexivity.
Qed.

(** X13. Round trip of a response. With the data line an input and a
    response byte staged (eight bits to send), eight clock pulses bring the
    byte out on the data line, most significant bit first: the guest reads
    back exactly [data_in]. Afterwards nothing is left to send, and the
    command, the write protection, [alt], the bits gathered so far and the
    store are as before. *)
Theorem response_round_trip (now : Z) (m : State) :
  Z.testbit (dirb (mos6522_via1 m)) 0 = false ->
  data_out_cnt m <> 8 -> data_in_cnt m = 8 -> 0 <= data_in m < 256 ->
  let r := receive_byte now m in
  fst r = data_in m /\
  rtc_regs (snd r) = rtc_regs (set_data_in_cnt 0 (set_data_in 0 m)).
Proof.
  intros Hdir Hout Hcnt Hin r. subst r. now apply receive_byte_facts.
Qed.

Lemma byte_step_read_seconds (now k : Z) (m : State) :
  0 <= now -> 0 <= k <= 3 -> cmd m = 0 ->
  data_in (byte_step now (0x81 + 4 * k) m) = (rtc_seconds m now / 256 ^ k) mod 256 /\
  data_in_cnt (byte_step now (0x81 + 4 * k) m) = 8.
Proof.
  intros Hnow Hk Hcmd. unfold byte_step. rewrite rtc_byte_at_8, Hcmd.
  change (0 =? 0) with true. cbv zeta.
  assert (Hsecs : u32 (tick_offset m + Z.quot now NANOSECONDS_PER_SECOND)
                  = rtc_seconds m now).
  { unfold rtc_seconds. rewrite Z.quot_div_nonneg; [reflexivity|lia|].
    unfold NANOSECONDS_PER_SECOND; lia. }
  assert (Hcase : k = 0 \/ k = 1 \/ k = 2 \/ k = 3) by lia.
  unfold rtc_first_byte. fields. rewrite Hsecs.
  destruct Hcase as [-> | [-> | [-> | ->]]];
    cbn -[u8 u32 Z.land Z.shiftr Z.pow Z.div Z.modulo rtc_seconds]; fields;
    (split; [|reflexivity]).
  - rewrite <- (byte_of (rtc_seconds m now) 0) by lia. now rewrite Z.shiftr_0_r.
  - now rewrite <- (byte_of (rtc_seconds m now) 1) by lia.
  - now rewrite <- (byte_of (rtc_seconds m now) 2) by lia.
  - now rewrite <- (byte_of (rtc_seconds m now) 3) by lia.
Qed.

(** X14. A whole clock read as the guest performs it. From an idle engine
    with the data line an output, the guest clocks out the command
    [0x81 + 4k], turns the data line round and clocks eight bits in: the
    byte it reads is byte [k] of the seconds counter,
    [tick_offset + floor(now / 1e9)] in 32 bits, and the engine is idle
    again with no command latched. *)
Theorem clock_read_transaction (now k : Z) (m : State) :
  0 <= now -> 0 <= k <= 3 ->
  Z.testbit (dirb (mos6522_via1 m)) 0 = true ->
  cmd m = 0 -> data_out_cnt m = 0 -> data_out m = 0 ->
  let r := read_register now (0x81 + 4 * k) m in
  fst r = (rtc_seconds m now / 256 ^ k) mod 256 /\
  cmd (snd r) = 0 /\ data_in_cnt (snd r) = 0 /\ data_out_cnt (snd r) = 0 /\
  PRAM (snd r) = PRAM m.
Proof.
  intros Hnow Hk Hdir Hcmd Hcnt Hdo r. subst r. unfold rtc_read_register.
  destruct (send_byte_regs now (0x81 + 4 * k) m ltac:(lia) Hdir Hcnt Hdo) as [Hr Hd].
  generalize dependent (send_byte now (0x81 + 4 * k) m). intros m1 Hr Hd.
  destruct (byte_step_read_seconds now k m Hnow Hk Hcmd) as [Hin Hic].
  destruct (byte_step_ready now (0x81 + 4 * k) m) as [Hc1 Hd1].
  pose proof Hr as Hf. apply rtc_regs_fields in Hf.
  destruct Hf as (E0 & E1 & E2 & E3 & E4 & E5 & E6 & E7 & E8).
  assert (Hmod : 0 <= (rtc_seconds m now / 256 ^ k) mod 256 < 256)
    by (apply Z.mod_pos_bound; lia).
  destruct (receive_byte_facts now (rtc_data_input m1)) as [Hv Hregs].
  - unfold rtc_data_input. fields. rewrite u8_testbit by lia.
    rewrite Z.land_spec, Z.lnot_spec by lia.
    change (Z.testbit VIA1B_vRTCData 0) with true. apply andb_false_r.
  - unfold rtc_data_input. fields. rewrite E2, Hc1. discriminate.
  - unfold rtc_data_input. fields. now rewrite E4.
  - unfold rtc_data_input. fields. now rewrite E3, Hin.
  - rewrite Hv.
    apply rtc_regs_fields in Hregs. fields in Hregs.
    destruct Hregs as (_ & _ & F2 & _ & F4 & F5 & _ & _ & F8).
    rewrite F2, F4, F5, F8.
    unfold rtc_data_input. fields.
    rewrite E2, E3, E5, E8, Hc1, Hin.
    assert (Hcmd' : cmd (byte_step now (0x81 + 4 * k) m) = 0 /\
                    PRAM (byte_step now (0x81 + 4 * k) m) = PRAM m).
    { unfold byte_step. rewrite rtc_byte_at_8, Hcmd.
      change (0 =? 0) with true. cbv zeta.
      assert (Hcase : k = 0 \/ k = 1 \/ k = 2 \/ k = 3) by lia.
      destruct m. fields in Hcmd. subst.
      destruct Hcase as [-> | [-> | [-> | ->]]]; split; reflexivity. }
    destruct Hcmd' as [-> ->]. repeat split.
Qed.

End Via1Facts.

(** ** The serial protocol on concrete input *)

Ltac bytes_ok :=
  repeat match goal with |- Forall _ _ => constructor end; lia.

(** C1, the code on a concrete run. For every ADB transport, from the
    state after reset: the guest sends the write command 0x35 and its data
    byte 0x00, a complete two-byte transaction, and then the read command
    0x81. The command is still 0x35 after the data byte and after the third
    byte; the third byte is taken as one more data byte of 0x35, so it turns
    the write protection on (its bit 0 is set) and stages no response. *)
Theorem rtc_cmd_never_cleared {Bus : Type}
    (adb_send : Bus -> Z -> Z -> Z * Bus)
    (adb_receive : Bus -> Z -> Z -> Z * Z * Bus) (bus : Bus) (now : Z) :
  let sent := fun ds => rtc_send_bytes adb_send adb_receive now ds (rtc_ready bus) in
  cmd (sent [0x35; 0x00]) = 0x35 /\
  cmd (sent [0x35; 0x00; 0x81]) = 0x35 /\
  wprotect (sent [0x35; 0x00; 0x81]) = 1 /\
  data_in_cnt (sent [0x35; 0x00; 0x81]) = 0.
Proof.
  intros sent. subst sent. cbv beta.
  pose proof (send_bytes_regs adb_send adb_receive now [0x35; 0x00]
                (rtc_ready bus) (rtc_ready bus)
                ltac:(bytes_ok) eq_refl eq_refl eq_refl eq_refl) as H2.
  pose proof (send_bytes_regs adb_send adb_receive now [0x35; 0x00; 0x81]
                (rtc_ready bus) (rtc_ready bus)
                ltac:(bytes_ok) eq_refl eq_refl eq_refl eq_refl) as H3.
  apply rtc_regs_fields in H2. destruct H2 as (_&_&_&_&_& H2 &_).
  apply rtc_regs_fields in H3. destruct H3 as (_&_&_&_& Hc & H3 & Hw &_).
  rewrite H2, H3, Hw, Hc. repeat split.
Qed.

(** C2, the code on a concrete run. For every ADB transport, from the
    state after reset: the transaction 0x35, 0x01 turns the write protection
    on; the transaction 0x35, 0x00 that follows leaves it on; and nothing
    that happens to the device afterwards turns it off or changes the
    store. *)
Theorem wprotect_never_restored {Bus : Type}
    (adb_send : Bus -> Z -> Z -> Z * Bus)
    (adb_receive adb_via_poll : Bus -> Z -> Z -> Z * Z * Bus)
    (update_irq : MOS6522State -> MOS6522State)
    (VIA1_IRQ_VBLANK VIA1_IRQ_ONE_SECOND : Z)
    (bus : Bus) (now : Z) (evs : list Via1Event) :
  let sent := fun ds => rtc_send_bytes adb_send adb_receive now ds (rtc_ready bus) in
  let m' := via1_run adb_send adb_receive adb_via_poll update_irq
              VIA1_IRQ_VBLANK VIA1_IRQ_ONE_SECOND evs
              (sent [0x35; 0x01; 0x35; 0x00]) in
  wprotect (sent [0x35; 0x01]) = 1 /\
  wprotect (sent [0x35; 0x01; 0x35; 0x00]) = 1 /\
  wprotect m' = 1 /\
  PRAM m' = PRAM (rtc_ready bus).
Proof.
  intros sent m'. subst sent. cbv beta in *.
  pose proof (send_bytes_regs adb_send adb_receive now [0x35; 0x01]
                (rtc_ready bus) (rtc_ready bus)
                ltac:(bytes_ok) eq_refl eq_refl eq_refl eq_refl) as H2.
  pose proof (send_bytes_regs adb_send adb_receive now [0x35; 0x01; 0x35; 0x00]
                (rtc_ready bus) (rtc_ready bus)
                ltac:(bytes_ok) eq_refl eq_refl eq_refl eq_refl) as H4.
  apply rtc_regs_fields in H2. destruct H2 as (_&_&_&_&_&_& H2 &_).
  apply rtc_regs_fields in H4. destruct H4 as (_&_&_&_&_&_& H4 &_& Hp).
  assert (Hw : wprotect (rtc_send_bytes adb_send adb_receive now
                           [0x35; 0x01; 0x35; 0x00] (rtc_ready bus)) = 1)
    by (rewrite H4; reflexivity).
  split; [rewrite H2; reflexivity|]. split; [exact Hw|].
  destruct (wprotect_forever adb_send adb_receive adb_via_poll update_irq
              VIA1_IRQ_VBLANK VIA1_IRQ_ONE_SECOND evs
              (rtc_send_bytes adb_send adb_receive now
                 [0x35; 0x01; 0x35; 0x00] (rtc_ready bus))) as [H5 H6].
  { rewrite Hw. discriminate. }
  subst m'. split; [now rewrite H5|]. rewrite H6, Hp. reflexivity.
Qed.

(** C3, the code on a concrete run. For every ADB transport, from the
    state after reset: the guest sends the 0xB8-pattern command 0xb8, the alt
    byte 0xbc and the data byte 0x5a. Nothing is stored (the specification has 0x5a
    at address 15) and [alt] is never set: the command has its high bit set,
    so it is latched as an extended read and the two bytes after it each
    stage a response. Nor does anything else that can happen to the device
    after reset change the store. *)
Theorem extended_write_never_happens {Bus : Type}
    (adb_send : Bus -> Z -> Z -> Z * Bus)
    (adb_receive adb_via_poll : Bus -> Z -> Z -> Z * Z * Bus)
    (update_irq : MOS6522State -> MOS6522State)
    (VIA1_IRQ_VBLANK VIA1_IRQ_ONE_SECOND : Z)
    (bus : Bus) (now : Z) (evs : list Via1Event) :
  let m' := rtc_send_bytes adb_send adb_receive now [0xb8; 0xbc; 0x5a] (rtc_ready bus) in
  PRAM m' = PRAM (rtc_ready bus) /\
  PRAM m' <> <[15%nat := 0x5a]> (PRAM (rtc_ready bus)) /\
  alt m' = 0 /\ cmd m' = 0xb8 /\ data_in_cnt m' = 8 /\
  PRAM (via1_run adb_send adb_receive adb_via_poll update_irq
          VIA1_IRQ_VBLANK VIA1_IRQ_ONE_SECOND evs (rtc_ready bus))
    = PRAM (rtc_ready bus).
Proof.
  intros m'.
  pose proof (send_bytes_regs adb_send adb_receive now [0xb8; 0xbc; 0x5a]
                (rtc_ready bus) (rtc_ready bus)
                ltac:(bytes_ok) eq_refl eq_refl eq_refl eq_refl) as H.
  fold m' in H. apply rtc_regs_fields in H.
  destruct H as (_&_&_&_& Hcnt & Hcmd &_& Halt & Hp).
  rewrite Hp, Halt, Hcmd, Hcnt.
  split; [reflexivity|]. split; [|split; [reflexivity|split; [reflexivity|split; [reflexivity|]]]].
  - intros E. vm_compute in E. discriminate E.
  - apply pram_never_written. reflexivity.
Qed.

(** No command that matches the [0xa1] pattern is ever latched: the byte
    stage latches a first byte only when its high bit is clear or when it
    matches the [0xb8] pattern after failing the [0xa1] test. *)
Lemma rtc_byte_cmd_not_a1 {Bus : Type} (now : Z) (m : @MacVIAState Bus) :
  Z.land (cmd m) 0xf3 <> 0xa1 -> Z.land (cmd (rtc_byte now m)) 0xf3 <> 0xa1.
Proof.
  intros H. destruct m. fields in H.
  unfold rtc_byte, rtc_first_byte, rtc_second_byte. fields.
  split_ifs; fields; try exact H.
  - now apply Z.eqb_neq.
  - apply Z.eqb_neq. now apply high_bit_clear_not_a1.
Qed.

Lemma via1_rtc_update_cmd_not_a1 {Bus : Type} (now : Z) (m : @MacVIAState Bus) :
  Z.land (cmd m) 0xf3 <> 0xa1 ->
  Z.land (cmd (via1_rtc_update now m)) 0xf3 <> 0xa1.
Proof.
  intros H. unfold via1_rtc_update. destruct (nz _); [exact H|].
  apply rtc_byte_cmd_not_a1.
  destruct (rtc_shift_frame m) as (_&_&_&_&_&_&_&_& Hc &_).
  now rewrite Hc.
Qed.


(** The byte 0xa5 arrives with no command latched: the response is entry 1
    of the store. *)
Lemma pram_window_precedence_witness :
  let m := SilentBus.last_bit 0x52 1 0 0 0 0 (<[1%nat := 0x77]> (replicate 256 0)) in
  data_in (SilentBus.portB_write 0 m) = 0x77 /\
  data_in_cnt (SilentBus.portB_write 0 m) = 8.
Proof.
  intros m.
  destruct (pram_window_precedence SilentBus.adb_send SilentBus.adb_receive
              0 m 0xa5 eq_refl eq_refl ltac:(repeat split))
    as (Hin & Hcnt & _).
  split; [exact Hin|exact Hcnt].
Defined.

(** The epoch offset is 0x12345678 and the virtual clock reads 1000 s: the
    seconds counter is 0x12345a60, and the read command 0x85 answers with
    its byte 1, 0x5a. *)
Lemma rtc_read_seconds_witness :
  let m := SilentBus.last_bit 0x42 1 0 0 0 0x12345678 (replicate 256 0) in
  data_in (SilentBus.portB_write 1000000000000 m) = 0x5a /\
  data_in_cnt (SilentBus.portB_write 1000000000000 m) = 8.
Proof.
  intros m.
  destruct (rtc_read_seconds SilentBus.adb_send SilentBus.adb_receive
              1000000000000 m 1 ltac:(lia) ltac:(lia) eq_refl ltac:(repeat split))
    as (Hin & Hcnt & _).
  split; [exact Hin|exact Hcnt].
Defined.

(** The guest raises the clock with the RTC-enable bit set (RTC disabled):
    the seven bits already in stay seven. *)
Lemma rtc_disabled_frame_witness :
  let m0 := SilentBus.last_bit 0x42 1 0 0 0 0 (replicate 256 0) in
  let m := set_mos6522_via1 (set_b 0x07 (mos6522_via1 m0)) m0 in
  let m' := SilentBus.portB_write 0 m in
  (data_out m', data_out_cnt m', data_in m', data_in_cnt m',
   cmd m', alt m', wprotect m') = (0x42, 7, 0, 0, 0, 0, 0) /\
  PRAM m' = replicate 256 0.
Proof.
  intros m0 m m'.
  destruct (rtc_disabled_frame SilentBus.adb_send SilentBus.adb_receive 0 m eq_refl)
    as (Hregs & Hpram & _).
  split; [exact Hregs|exact Hpram].
Defined.

(** ** The one-second alarm *)

(** X1. At a virtual time of [t >= 0] milliseconds both the one-second alarm
    and the device reset schedule [(t / 1000 + 1) * 1000]: a whole second,
    strictly after [t], at most 1000 ms away, and the first such. *)
Theorem one_second_deadline_next {Bus : Type}
    (update_irq : MOS6522State -> MOS6522State) (VIA1_IRQ_ONE_SECOND : Z)
    (t_ns t : Z) (m : @MacVIAState Bus) :
  0 <= t ->
  let d := one_second_timer (via1_one_second update_irq VIA1_IRQ_ONE_SECOND t m) in
  one_second_timer (mac_via_reset t_ns t m) = d /\
  d = (t / 1000 + 1) * 1000 /\
  t < d <= t + 1000 /\
  d mod 1000 = 0 /\
  (forall k, t < k * 1000 -> d <= k * 1000).
Proof.
  intros Ht d.
  assert (Hd : d = (t / 1000 + 1) * 1000).
  { subst d. unfold via1_one_second. fields. unfold one_second_deadline.
    rewrite Z.quot_div_nonneg by lia.
    replace (t + 1000) with (t + 1 * 1000) by lia.
    now rewrite Z.div_add by lia. }
  pose proof (Z.div_mod t 1000 ltac:(lia)) as Hdm.
  pose proof (Z.mod_pos_bound t 1000 ltac:(lia)) as Hmod.
  split; [reflexivity|]. split; [exact Hd|]. split; [lia|]. split.
  - rewrite Hd. apply Z.mod_mul. lia.
  - intros k Hk. rewrite Hd. assert (t / 1000 < k) by nia. nia.
Qed.

(** ** Interrupt request lines *)

Lemma shiftl_1_testbit (irq k : Z) :
  0 <= irq -> 0 <= k -> Z.testbit (Z.shiftl 1 irq) k = (k =? irq).
Proof.
  intros Hi Hk. rewrite Z.shiftl_1_l, Z.pow2_bits_eqb by lia.
  apply Z.eqb_sym.
Qed.

Lemma u8_eq_bits (x y : Z) :
  (forall k, 0 <= k < 8 -> Z.testbit x k = Z.testbit y k) -> u8 x = u8 y.
Proof.
  intros H. unfold u8. change 256 with (2 ^ 8).
  apply Z.bits_inj'. intros n Hn.
  destruct (Z.lt_ge_cases n 8).
  - rewrite !Z.mod_pow2_bits_low by lia. apply H. lia.
  - now rewrite !Z.mod_pow2_bits_high by lia.
Qed.

Lemma byte_eq_bits (x y : Z) :
  0 <= x < 256 -> 0 <= y < 256 ->
  (forall k, 0 <= k < 8 -> Z.testbit x k = Z.testbit y k) -> x = y.
Proof.
  intros Hx Hy H. rewrite <- (u8_small x Hx), <- (u8_small y Hy).
  now apply u8_eq_bits.
Qed.

(** The flag register a request on line [irq] at [level] leaves. *)
Lemma irq_flags_bits (f irq level k : Z) :
  0 <= irq -> 0 <= k < 8 ->
  Z.testbit
    (if nz level then u8 (Z.lor f (Z.shiftl 1 irq))
     else u8 (Z.land f (Z.lnot (Z.shiftl 1 irq)))) k
  = if k =? irq then nz level else Z.testbit f k.
Proof.
  intros Hi Hk. destruct (nz level); rewrite u8_testbit by lia.
  - rewrite Z.lor_spec, shiftl_1_testbit by lia.
    destruct (k =? irq); [apply orb_true_r|apply orb_false_r].
  - rewrite Z.land_spec, Z.lnot_spec, shiftl_1_testbit by lia.
    destruct (k =? irq); [apply andb_false_r|apply andb_true_r].
Qed.

(** X2. A request on input line [irq] (0 to 7) of either chip hands the
    engine's [update_irq] a state in which flag bit [irq] is set when the
    level is non-zero and clear when it is zero; the other seven flags and
    all other registers are as before. *)
Theorem irq_request_sets_one_flag
    (update_irq : MOS6522State -> MOS6522State) (irq level : Z) (s : MOS6522State) :
  0 <= irq < 8 ->
  exists f,
    via1_irq_request update_irq irq level s = update_irq (set_ifr f s) /\
    via2_irq_request update_irq irq level s = update_irq (set_ifr f s) /\
    0 <= f < 256 /\
    forall k, 0 <= k < 8 ->
      Z.testbit f k = if k =? irq then nz level else Z.testbit (ifr s) k.
Proof.
  intros Hirq.
  exists (if nz level then u8 (Z.lor (ifr s) (Z.shiftl 1 irq))
          else u8 (Z.land (ifr s) (Z.lnot (Z.shiftl 1 irq)))).
  split; [|split; [|split]].
  - unfold via1_irq_request. now destruct (nz level).
  - unfold via2_irq_request. now destruct (nz level).
  - destruct (nz level); apply u8_range.
  - intros k Hk. apply irq_flags_bits; lia.
Qed.

Section IrqLinesFacts.

Variable update_irq : MOS6522State -> MOS6522State.

(** The engine's [update_irq] drives the output line from the flags; it is
    taken not to rewrite the flag register itself. *)
Hypothesis update_irq_ifr : forall s, ifr (update_irq s) = ifr s.

Lemma irq_request_ifr (irq level : Z) (s : MOS6522State) :
  ifr (via1_irq_request update_irq irq level s) =
    if nz level then u8 (Z.lor (ifr s) (Z.shiftl 1 irq))
    else u8 (Z.land (ifr s) (Z.lnot (Z.shiftl 1 irq))).
Proof.
  unfold via1_irq_request. cbv zeta. rewrite update_irq_ifr.
  now destruct (nz level).
Qed.

Lemma irq_request_ifr_range (irq level : Z) (s : MOS6522State) :
  0 <= ifr (via1_irq_request update_irq irq level s) < 256.
Proof. rewrite irq_request_ifr. destruct (nz level); apply u8_range. Qed.

Lemma irq_request_ifr_bits (irq level k : Z) (s : MOS6522State) :
  0 <= irq -> 0 <= k < 8 ->
  Z.testbit (ifr (via1_irq_request update_irq irq level s)) k =
    if k =? irq then nz level else Z.testbit (ifr s) k.
Proof. intros Hi Hk. rewrite irq_request_ifr. now apply irq_flags_bits. Qed.

(** X3. The input lines are independent: requests on two different lines
    leave the same flags in either order, and on one line the last level
    driven is the one that counts, whatever was driven before. *)
Theorem irq_lines_independent (i j li lj : Z) (s : MOS6522State) :
  0 <= i < 8 -> 0 <= j < 8 ->
  let req := via1_irq_request update_irq in
  (i <> j -> ifr (req i li (req j lj s)) = ifr (req j lj (req i li s))) /\
  ifr (req i li (req i lj s)) = ifr (req i li s).
Proof.
  intros Hi Hj req. subst req. split.
  - intros Hne. apply byte_eq_bits; try apply irq_request_ifr_range.
    intros k Hk. rewrite !irq_request_ifr_bits by lia.
    destruct (Z.eqb_spec k i), (Z.eqb_spec k j); try reflexivity. lia.
  - apply byte_eq_bits; try apply irq_request_ifr_range.
    intros k Hk. rewrite !irq_request_ifr_bits by lia.
    destruct (k =? i); reflexivity.
Qed.

End IrqLinesFacts.

(** ** Realization and reset *)


(** X16. Resetting VIA 2 cannot power the machine off: whatever the generic
    reset left in the registers, the power bit comes out as an input at
    level 0, so the port-B hook run on the reset state requests no
    shutdown; direction and data of port B are all zero and both timers run
    at 783360 Hz. *)
Theorem via2_reset_no_shutdown
    (parent_reset : MOS6522State * MOS6522Timers -> MOS6522State * MOS6522Timers)
    (dev : MOS6522State * MOS6522Timers) :
  let r := mos6522_q800_via2_reset parent_reset dev in
  mos6522_q800_via2_portB_write (fst r) = [] /\
  b (fst r) = 0 /\ dirb (fst r) = 0 /\
  frequency0 (snd r) = 783360 /\ frequency1 (snd r) = 783360.
Proof.
  intros r. subst r. unfold mos6522_q800_via2_reset.
  destruct (parent_reset dev) as [ms t]. cbn [fst snd]. repeat split.
Qed.

(** X17. VIA 1 comes out of reset with the RTC disabled, the ADB state at 3
    and the ADB interrupt bit set (no interrupt): a port-B write that leaves
    port B at its reset value does not reach the serial engine, whatever
    the serial registers hold. Both timers run at 783360 Hz. *)
Theorem via1_reset_rtc_disabled {Bus : Type}
    (adb_send : Bus -> Z -> Z -> Z * Bus)
    (adb_receive : Bus -> Z -> Z -> Z * Z * Bus)
    (parent_reset : MOS6522State * MOS6522Timers -> MOS6522State * MOS6522Timers)
    (dev : MOS6522State * MOS6522Timers) (now : Z) (m : @MacVIAState Bus) :
  let r := mos6522_q800_via1_reset parent_reset dev in
  b (fst r) = 0x3c /\ adb_state (fst r) = 3 /\
  Z.testbit (b (fst r)) 3 = true /\
  rtc_regs (mos6522_q800_via1_portB_write adb_send adb_receive now
              (set_mos6522_via1 (fst r) m)) = rtc_regs m /\
  frequency0 (snd r) = 783360 /\ frequency1 (snd r) = 783360.
Proof.
  intros r. subst r. unfold mos6522_q800_via1_reset.
  destruct (parent_reset dev) as [ms t]. cbn [fst snd].
  split; [reflexivity|]. split; [reflexivity|]. split; [reflexivity|].
  split; [|split; reflexivity].
  rewrite portB_write_rtc_regs. unfold via1_rtc_update. fields.
  rewrite nz_vRTCEnb. reflexivity.
Qed.

(** ** Alarms and flags, commands without effect *)

(** X18. The two alarms only add to the interrupt flags: the state each
    hands to the engine's [update_irq] has the alarm's own flag bits set and
    every other flag as it was, so a flag pending from another source is
    never lost to an alarm; port B, the direction and control registers and
    the serial state are not touched. *)
Theorem alarms_only_add_flags {Bus : Type}
    (update_irq : MOS6522State -> MOS6522State)
    (VIA1_IRQ_VBLANK VIA1_IRQ_ONE_SECOND : Z) (now now_ms : Z) (m : @MacVIAState Bus) :
  let s := mos6522_via1 m in
  exists f g,
    mos6522_via1 (via1_VBL update_irq VIA1_IRQ_VBLANK now m)
      = update_irq (set_ifr f s) /\
    mos6522_via1 (via1_one_second update_irq VIA1_IRQ_ONE_SECOND now_ms m)
      = update_irq (set_ifr g s) /\
    (forall k, 0 <= k < 8 ->
       Z.testbit f k = Z.testbit (ifr s) k || Z.testbit VIA1_IRQ_VBLANK k) /\
    (forall k, 0 <= k < 8 ->
       Z.testbit g k = Z.testbit (ifr s) k || Z.testbit VIA1_IRQ_ONE_SECOND k) /\
    rtc_regs (via1_VBL update_irq VIA1_IRQ_VBLANK now m) = rtc_regs m /\
    rtc_regs (via1_one_second update_irq VIA1_IRQ_ONE_SECOND now_ms m) = rtc_regs m.
Proof.
  intros s.
  exists (u8 (Z.lor (ifr s) VIA1_IRQ_VBLANK)), (u8 (Z.lor (ifr s) VIA1_IRQ_ONE_SECOND)).
  split; [reflexivity|]. split; [reflexivity|]. split; [|split; [|split; reflexivity]].
  - intros k Hk. rewrite u8_testbit by lia. apply Z.lor_spec.
  - intros k Hk. rewrite u8_testbit by lia. apply Z.lor_spec.
Qed.

(** X19. The write-seconds commands 0x01, 0x05, 0x09, 0x0d and the test
    register 0x31 take their data byte and do nothing with it: with one of
    them latched (and [alt] at 0) a completed byte changes neither the clock
    offset nor the store, the write protection, the latched command or a
    pending response; only the bit accumulator is cleared. *)
Theorem stub_commands_discard_data {Bus : Type}
    (adb_send : Bus -> Z -> Z -> Z * Bus)
    (adb_receive : Bus -> Z -> Z -> Z * Z * Bus)
    (now : Z) (m : @MacVIAState Bus) (d : Z) :
  completes_byte m d ->
  cmd m = 0x01 \/ cmd m = 0x05 \/ cmd m = 0x09 \/ cmd m = 0x0d \/ cmd m = 0x31 ->
  alt m = 0 ->
  rtc_regs (mos6522_q800_via1_portB_write adb_send adb_receive now m) =
  rtc_regs (set_data_out_cnt 0 (set_data_out 0 m)).
Proof.
  intros Hb Hcmd Halt.
  rewrite (portB_write_completes adb_send adb_receive now m d Hb).
  destruct m as [s0 lb t0 dout cnt din dcnt c wp a bus t1 t2 t3 pram].
  fields in Hcmd. fields in Halt. subst a. fields.
  unfold rtc_second_byte. fields.
  destruct Hcmd as [-> | [-> | [-> | [-> | ->]]]];
    destruct (nz wp); reflexivity.
Qed.

(** ** The added properties on concrete input *)

(** The alarm fires at 1500 ms: the next deadline is 2000 ms. *)
Lemma one_second_deadline_next_witness :
  one_second_timer (via1_one_second (fun s => s) 0x01 1500 SilentBus.machine) = 2000.
Proof.
  destruct (one_second_deadline_next (fun s => s) 0x01 0 1500 SilentBus.machine
              ltac:(lia)) as (_ & H & _).
  rewrite H. reflexivity.
Defined.

(** Line 3 is asserted on a chip with no flag set: flag 3 is set. *)
Lemma irq_request_sets_one_flag_witness :
  exists f,
    via1_irq_request (fun s => s) 3 1 (Build_MOS6522State 0 0 0 0 0)
      = set_ifr f (Build_MOS6522State 0 0 0 0 0) /\
    Z.testbit f 3 = true /\ Z.testbit f 2 = false.
Proof.
  destruct (irq_request_sets_one_flag (fun s => s) 3 1
              (Build_MOS6522State 0 0 0 0 0) ltac:(lia))
    as (f & H1 & _ & _ & Hbits).
  exists f. split; [exact H1|]. split.
  - rewrite (Hbits 3) by lia. reflexivity.
  - rewrite (Hbits 2) by lia. reflexivity.
Defined.

(** Lines 1 and 2 asserted in either order leave the same flags. *)
Lemma irq_lines_independent_witness :
  ifr (via1_irq_request (fun s => s) 1 1
         (via1_irq_request (fun s => s) 2 1 (Build_MOS6522State 0 0 0 0 0))) =
  ifr (via1_irq_request (fun s => s) 2 1
         (via1_irq_request (fun s => s) 1 1 (Build_MOS6522State 0 0 0 0 0))).
Proof.
  destruct (irq_lines_independent (fun s => s) (fun s => eq_refl) 1 2 1 1
              (Build_MOS6522State 0 0 0 0 0) ltac:(lia) ltac:(lia)) as [H _].
  apply H. lia.
Defined.

(** The ADB poll runs in the middle of a byte: the seven bits stay. *)
Lemma serial_state_frame_witness :
  let m := SilentBus.last_bit 0x42 1 0 0 0 0 (replicate 256 0) in
  rtc_regs (via1_event SilentBus.adb_send SilentBus.adb_receive
              SilentBus.adb_via_poll (fun s => s) 0x02 0x01 (EvAdbPoll 0) m)
  = rtc_regs m.
Proof.
  intros m.
  exact (serial_state_frame SilentBus.adb_send SilentBus.adb_receive
           SilentBus.adb_via_poll (fun s => s) 0x02 0x01 (EvAdbPoll 0) m I).
Defined.

(** The bytes 0x35, 0x01 sent over the wire turn the write protection on. *)
Lemma serial_link_is_byte_machine_witness :
  wprotect (SilentBus.send_all 0 [0x35; 0x01] SilentBus.machine) = 1.
Proof.
  destruct (serial_link_is_byte_machine SilentBus.adb_send SilentBus.adb_receive
              0 [0x35; 0x01] SilentBus.machine
              ltac:(bytes_ok) eq_refl eq_refl eq_refl) as (H & _).
  apply rtc_regs_fields in H. destruct H as (_&_&_&_&_&_& H &_).
  unfold SilentBus.send_all. rewrite H. reflexivity.
Defined.

(** The byte 0xff arrives with no command latched: nothing is staged. *)
Lemma unknown_byte_ignored_witness :
  let m := SilentBus.last_bit 0x7f 1 0 0 0 0 (replicate 256 0) in
  rtc_regs (SilentBus.portB_write 0 m) =
  rtc_regs (set_data_out_cnt 0 (set_data_out 0 m)).
Proof.
  intros m.
  apply (unknown_byte_ignored SilentBus.adb_send SilentBus.adb_receive 0 m 0xff).
  - repeat split.
  - reflexivity.
  - right. repeat split; discriminate.
Defined.

(** Command 0xb9 (sector 1) is latched and the byte 0x0c arrives: the
    response is entry 11 of the store. *)
Lemma extended_read_witness :
  let m := SilentBus.last_bit 0x06 0 0xb9 1 0 0 (<[11%nat := 0x42]> (replicate 256 0)) in
  data_in (SilentBus.portB_write 0 m) = 0x42 /\
  data_in_cnt (SilentBus.portB_write 0 m) = 8.
Proof.
  intros m.
  destruct (extended_read SilentBus.adb_send SilentBus.adb_receive 0 m 0x0c
              ltac:(repeat split) eq_refl) as (_ & Hin & Hcnt & _).
  split; [exact Hin|exact Hcnt].
Defined.

Lemma machine_wf : rtc_wf SilentBus.machine.
Proof.
  unfold rtc_wf.
  change (PRAM SilentBus.machine) with (replicate 256 (0 : Z)).
  repeat match goal with |- _ /\ _ => split end;
    try (apply Forall_replicate; lia); try (cbn; lia).
Qed.

(** The guest sends a byte and an alarm fires: the state is well formed. *)
Lemma rtc_wf_preserved_witness :
  rtc_wf (via1_run SilentBus.adb_send SilentBus.adb_receive
            SilentBus.adb_via_poll (fun s => s) 0x02 0x01
            [EvPortB 0 (Build_MOS6522State 0x02 0x07 0 0 0); EvVBL 5]
            SilentBus.machine).
Proof.
  exact (rtc_wf_preserved SilentBus.adb_send SilentBus.adb_receive
           SilentBus.adb_via_poll (fun s => s) 0x02 0x01
           [EvPortB 0 (Build_MOS6522State 0x02 0x07 0 0 0); EvVBL 5]
           SilentBus.machine machine_wf).
Defined.

(** The response 0xa5 is staged and the data line is an input: the guest
    reads 0xa5. *)
Lemma response_round_trip_witness :
  let m := set_data_in_cnt 8 (set_data_in 0xa5 (rtc_data_input SilentBus.machine)) in
  fst (rtc_receive_byte SilentBus.adb_send SilentBus.adb_receive 0 m) = 0xa5.
Proof.
  intros m.
  destruct (response_round_trip SilentBus.adb_send SilentBus.adb_receive 0 m
              eq_refl ltac:(discriminate) eq_refl ltac:(cbn; lia)) as (H & _).
  exact H.
Defined.

(** Five seconds after start, with a zero epoch offset, the guest reads
    seconds register 0: it gets 5. *)
Lemma clock_read_transaction_witness :
  fst (rtc_read_register SilentBus.adb_send SilentBus.adb_receive
         5000000000 0x81 SilentBus.machine) = 5.
Proof.
  destruct (clock_read_transaction SilentBus.adb_send SilentBus.adb_receive
              5000000000 0 SilentBus.machine
              ltac:(lia) ltac:(lia) eq_refl eq_refl eq_refl eq_refl) as (H & _).
  exact H.
Defined.

(** The write-seconds command 0x01 is latched and the byte 0x5a arrives:
    nothing but the accumulator changes. *)
Lemma stub_commands_discard_data_witness :
  let m := SilentBus.last_bit 0x2d 0 0x01 0 0 0x12345678 (replicate 256 0) in
  rtc_regs (SilentBus.portB_write 0 m) =
  rtc_regs (set_data_out_cnt 0 (set_data_out 0 m)).
Proof.
  intros m.
  apply (stub_commands_discard_data SilentBus.adb_send SilentBus.adb_receive 0 m 0x5a).
  - repeat split.
  - left. reflexivity.
  - reflexivity.
Defined.

